(** * intra-deploy: the Svix polling watcher of [intra_deploy/main.py]

    A shallow embedding of [main.py] and the properties of its polling and
    cursor logic.

    Python values are the values a decoded JSON document can hold.  Effects
    are a trace of observable events (log records, calls of [deploy], HTTP
    requests, sleeps) together with the outcome of the call: it returned a
    value, it raised an exception, or the scripted environment ran out while
    the poll loop was still running.  The network and the clock are the
    environment: every loop iteration consumes one scripted [world]. *)

From Stdlib Require Import String Ascii List ZArith Bool Lia PrimFloat.
#[local] Set Warnings "-register-all".
Import ListNotations.
Local Open Scope string_scope.
Local Open Scope list_scope.

(* ===================================================================== *)
(** ** Python values *)
(* ===================================================================== *)

(** What [json.loads] / [response.json()] can produce.  A [str] is a
    [string] with one [ascii] per character; a [float] is a binary64
    number.  A [dict] keeps its items in insertion order; [dict_get] reads
    the first binding of a key. *)
Inductive PyVal : Type :=
| PyNone
| PyBool (b : bool)
| PyInt (z : Z)
| PyFloat (f : float)
| PyStr (s : string)
| PyList (l : list PyVal)
| PyDict (d : list (string * PyVal)).

Definition pydict := list (string * PyVal).

Fixpoint dict_get (key : string) (d : pydict) : option PyVal :=
  match d with
  | [] => None
  | (k, v) :: d' => if String.eqb k key then Some v else dict_get key d'
  end.

(** [bool(v)]: the truth value tested by [if v:] and [not v]. *)
Definition truthy (v : PyVal) : bool :=
  match v with
  | PyNone => false
  | PyBool b => b
  | PyInt z => negb (Z.eqb z 0)
  | PyFloat f => negb (PrimFloat.eqb f 0%float)
  | PyStr s => negb (String.eqb s "")
  | PyList l => match l with [] => false | _ :: _ => true end
  | PyDict d => match d with [] => false | _ :: _ => true end
  end.

(** [v == "literal"]: only a [str] with the same characters compares equal
    to a [str]. *)
Definition py_eq_str (v : PyVal) (s : string) : bool :=
  match v with
  | PyStr t => String.eqb t s
  | _ => false
  end.

(** The characters of a [str], each as a one-character [str]. *)
Fixpoint chars (s : string) : list PyVal :=
  match s with
  | EmptyString => []
  | String c s' => PyStr (String c EmptyString) :: chars s'
  end.

(* ===================================================================== *)
(** ** Exceptions *)
(* ===================================================================== *)

Inductive exn : Type :=
| AttributeError
| TypeError
| WebhookVerificationError
| OtherException (name : string)   (* any other class deriving from Exception *)
| KeyboardInterrupt
| CancelledError                   (* asyncio: derives from BaseException *)
| SystemExit (code : Z).

(** [isinstance(e, Exception)]: what [except Exception] catches. *)
Definition is_Exception (e : exn) : bool :=
  match e with
  | AttributeError | TypeError | WebhookVerificationError
  | OtherException _ => true
  | KeyboardInterrupt | CancelledError | SystemExit _ => false
  end.

Definition is_KeyboardInterrupt (e : exn) : bool :=
  match e with
  | KeyboardInterrupt => true
  | _ => false
  end.

Definition is_WebhookVerificationError (e : exn) : bool :=
  match e with
  | WebhookVerificationError => true
  | _ => false
  end.

(* ===================================================================== *)
(** ** Events and the effect monad *)
(* ===================================================================== *)

(** An f-string, kept as its parts: literal text and interpolated values. *)
Inductive fpart : Type :=
| Lit (s : string)
| Fmt (v : PyVal)
| FmtExn (e : exn).

Definition fstring := list fpart.

Inductive level : Type := INFO | ERROR.

(** [logging.info(...)] goes through the root logger, [logger.info(...)]
    through [logging.getLogger(__name__)]. *)
Inductive logger_id : Type := RootLogger | ModuleLogger.

Inductive signal_id : Type := SIGINT | SIGTERM.

Inductive event : Type :=
| EvSetupLogging
| EvLog (lg : logger_id) (lvl : level) (msg : fstring)
| EvDeploy                                  (* [deploy()] is entered *)
| EvVerify (secret payload : string) (headers : list (string * string))
                                            (* [wh.verify(payload, headers)] *)
| EvGet (url : fstring) (headers : list (string * fstring))
                                            (* [session.get(url, headers=...)] *)
| EvSleep (seconds : Z)
| EvSignal (sig : signal_id).               (* [signal.signal(sig, handle_shutdown)] *)

Definition trace := list event.

Inductive outcome (A : Type) : Type :=
| Returned (a : A)
| Raised (e : exn)
| Pending.    (* the scripted environment is exhausted, the loop still runs *)

Arguments Returned {A} a.
Arguments Raised {A} e.
Arguments Pending {A}.

Definition M (A : Type) : Type := trace * outcome A.

Definition ret {A} (a : A) : M A := ([], Returned a).
Definition raise {A} (e : exn) : M A := ([], Raised e).
Definition emit (ev : event) : M unit := ([ev], Returned tt).

Definition bind {A B} (m : M A) (k : A -> M B) : M B :=
  match m with
  | (t, Returned a) => let (t', r) := k a in (t ++ t', r)
  | (t, Raised e) => (t, Raised e)
  | (t, Pending) => (t, Pending)
  end.

(** [try: body  except C1 as e: h1 e  except C2 as e: h2 e ...]: the first
    clause whose class matches handles the exception; what a handler raises
    is not handled by the clauses of the same [try]. *)
Definition except_clause (A : Type) : Type := ((exn -> bool) * (exn -> M A))%type.

Fixpoint select_handler {A} (e : exn) (clauses : list (except_clause A))
  : option (exn -> M A) :=
  match clauses with
  | [] => None
  | (catches, h) :: rest =>
      if catches e then Some h else select_handler e rest
  end.

Definition try_except {A} (body : M A) (clauses : list (except_clause A)) : M A :=
  match body with
  | (t, Raised e) =>
      match select_handler e clauses with
      | Some h => let (t', r) := h e in (t ++ t', r)
      | None => (t, Raised e)
      end
  | other => other
  end.

Declare Scope py_scope.
Delimit Scope py_scope with py.
Notation "x <- m ;; k" := (bind m (fun x => k))
  (at level 61, m at next level, right associativity) : py_scope.
Notation "m ;; k" := (bind m (fun _ => k))
  (at level 61, right associativity) : py_scope.
Local Open Scope py_scope.

Definition events {A} (m : M A) : trace := fst m.
Definition result {A} (m : M A) : outcome A := snd m.

Definition log (lg : logger_id) (lvl : level) (msg : fstring) : M unit :=
  emit (EvLog lg lvl msg).

(** [d.get(key, default)] on a [dict]. *)
Definition dict_get_default (key : string) (d : pydict) (default : PyVal) : PyVal :=
  match dict_get key d with
  | Some v => v
  | None => default
  end.

(** [obj.get(key, default)]: only a [dict] has a [get] method. *)
Definition py_get (obj : PyVal) (key : string) (default : PyVal) : M PyVal :=
  match obj with
  | PyDict d => ret (dict_get_default key d default)
  | _ => raise AttributeError
  end.

(** [for x in v]: the items a [for] loop visits. *)
Definition py_iter (v : PyVal) : M (list PyVal) :=
  match v with
  | PyList l => ret l
  | PyDict d => ret (map (fun kv => PyStr (fst kv)) d)
  | PyStr s => ret (chars s)
  | _ => raise TypeError
  end.

(* ===================================================================== *)
(** ** [main.py] *)
(* ===================================================================== *)

(** [deploy] (lines 30-32). *)
Definition deploy : M unit :=
  emit EvDeploy ;;
  log RootLogger INFO [Lit "Deploy function called (empty implementation)"].

(** [process_webhook_payload] (lines 34-44). *)
Definition process_webhook_payload (payload : PyVal) : M unit :=
  r1 <- py_get payload "ref" PyNone ;;
  c <- (if py_eq_str r1 "refs/heads/master" then ret true
        else r2 <- py_get payload "ref" PyNone ;;
             ret (py_eq_str r2 "refs/heads/main")) ;;
  if c : bool then
    log RootLogger INFO
        [Lit "Push to master/main branch detected, triggering deploy"] ;;
    deploy
  else
    r3 <- py_get payload "ref" PyNone ;;
    log RootLogger INFO [Lit "Ignoring push to "; Fmt r3].


(** *** The environment of one poll cycle *)

(** What [await response.json()] does. *)
Inductive json_outcome : Type :=
| JsonValue (v : PyVal)
| JsonRaises (e : exn).

(** What [session.get(url, headers=headers)] does: it raises, or it yields a
    response with a status and a body. *)
Inductive http_outcome : Type :=
| GetRaises (e : exn)
| Response (status : Z) (body : json_outcome).

(** One poll cycle of the environment: the answer to the request, and
    whether [asyncio.sleep] completes ([None]) or an exception is thrown
    into it. *)
Record world : Type := World {
  w_http : http_outcome;
  w_sleep : option exn
}.

Definition response_json (body : json_outcome) : M PyVal :=
  match body with
  | JsonValue v => ret v
  | JsonRaises e => raise e
  end.

Definition asyncio_sleep (seconds : Z) (interrupt : option exn) : M unit :=
  emit (EvSleep seconds) ;;
  match interrupt with
  | None => ret tt
  | Some e => raise e
  end.

(** The request URL of [poll_messages] (lines 84-86). *)
Definition poll_url (endpoint_url : string) (iterator : PyVal) : fstring :=
  if truthy iterator
  then [Fmt (PyStr endpoint_url); Lit "?iterator="; Fmt iterator]
  else [Fmt (PyStr endpoint_url)].

(** The request headers of [poll_messages] (lines 78-82). *)
Definition poll_headers (api_key : string) : list (string * fstring) :=
  [("Authorization", [Lit "Bearer "; Fmt (PyStr api_key)]);
   ("Content-Type", [Lit "application/json"]);
   ("Accept", [Lit "application/json"])].

(** The tuple [[], "", True] of lines 92 and 99. *)
Definition empty_fetch : PyVal * PyVal * PyVal :=
  (PyList [], PyStr "", PyBool true).

(** [poll_messages] (lines 59-99).  The session is the environment: [http]
    is what it answers to this request. *)
Definition poll_messages (http : http_outcome) (endpoint_url api_key : string)
    (logger : logger_id) (iterator : PyVal) : M (PyVal * PyVal * PyVal) :=
  let headers := poll_headers api_key in
  let url := poll_url endpoint_url iterator in
  try_except
    (emit (EvGet url headers) ;;
     match http with
     | GetRaises e => raise e
     | Response status body =>
         if negb (Z.eqb status 200) then
           log logger ERROR [Lit "Failed to poll messages: "; Fmt (PyInt status)] ;;
           ret empty_fetch
         else
           data <- response_json body ;;
           d <- py_get data "data" (PyList []) ;;
           i <- py_get data "iterator" (PyStr "") ;;
           f <- py_get data "done" (PyBool true) ;;
           ret (d, i, f)
     end)
    [(is_Exception,
      fun e => log logger ERROR [Lit "Error polling messages: "; FmtExn e] ;;
               ret empty_fetch)].

(** The body of the [for] loop of [process_messages] (lines 112-117). *)
Definition process_message (logger : logger_id) (msg : PyVal) : M unit :=
  try_except
    (payload <- py_get msg "payload" (PyDict []) ;;
     i <- py_get msg "id" PyNone ;;
     log logger INFO [Lit "Processing message: "; Fmt i] ;;
     process_webhook_payload payload)
    [(is_Exception,
      fun e => i <- py_get msg "id" PyNone ;;
               log logger ERROR
                   [Lit "Error processing message "; Fmt i; Lit ": "; FmtExn e])].

Fixpoint for_each {A} (items : list A) (body : A -> M unit) : M unit :=
  match items with
  | [] => ret tt
  | x :: rest => body x ;; for_each rest body
  end.

(** [process_messages] (lines 101-117). *)
Definition process_messages (messages : PyVal) (logger : logger_id) : M unit :=
  items <- py_iter messages ;;
  for_each items (process_message logger).

(** The cursor decision of lines 144-148. *)
Definition next_cursor (next_iterator done : PyVal) : PyVal :=
  if negb (truthy done) && truthy next_iterator then next_iterator else PyNone.

(** One pass through the body of [while True] (lines 137-150); it returns
    the value of [iterator] the next pass starts with. *)
Definition poll_cycle (endpoint_url api_key : string) (logger : logger_id)
    (poll_interval : Z) (iterator : PyVal) (w : world) : M PyVal :=
  fetched <- poll_messages (w_http w) endpoint_url api_key logger iterator ;;
  let '(messages, next_iterator, done) := fetched in
  (if truthy messages then process_messages messages logger else ret tt) ;;
  let iterator' := next_cursor next_iterator done in
  asyncio_sleep poll_interval (w_sleep w) ;;
  ret iterator'.

(** The [while True] loop, run against a script of poll cycles. *)
Fixpoint poll_loop (endpoint_url api_key : string) (logger : logger_id)
    (poll_interval : Z) (iterator : PyVal) (ws : list world) : M unit :=
  match ws with
  | [] => ([], Pending)
  | w :: ws' =>
      iterator' <- poll_cycle endpoint_url api_key logger poll_interval iterator w ;;
      poll_loop endpoint_url api_key logger poll_interval iterator' ws'
  end.

(** [run_poller] (lines 119-150): the loop starts with [iterator = None]. *)
Definition run_poller (endpoint_url api_key : string) (logger : logger_id)
    (poll_interval : Z) (ws : list world) : M unit :=
  poll_loop endpoint_url api_key logger poll_interval PyNone ws.

(** [handle_shutdown] (lines 152-156); [sys.exit(0)] raises [SystemExit(0)]. *)
Definition handle_shutdown (signum : Z) : M unit :=
  log ModuleLogger INFO
      [Lit "Received signal "; Fmt (PyInt signum); Lit ", shutting down..."] ;;
  raise (SystemExit 0).

(** [os.getenv]'s answer, kept only when [not value] is false. *)
Definition is_set (value : option string) : option string :=
  match value with
  | Some s => if String.eqb s "" then None else Some s
  | None => None
  end.

(** What the start of [main] meets outside its [try]: [setup_logging()]
    (creating the log directory and opening the log file) and the two calls
    of [signal.signal] each return ([None]) or raise. *)
Record startup : Type := Startup {
  s_logging : option exn;
  s_sigint : option exn;
  s_sigterm : option exn
}.

(** [setup_logging] (lines 15-28): the handlers are configured by its last
    statement, so a call that raises has configured nothing. *)
Definition setup_logging (fault : option exn) : M unit :=
  match fault with
  | None => emit EvSetupLogging
  | Some e => raise e
  end.

(** [signal.signal(sig, handle_shutdown)]. *)
Definition signal_signal (sig : signal_id) (fault : option exn) : M unit :=
  match fault with
  | None => emit (EvSignal sig)
  | Some e => raise e
  end.

(** [main] (lines 158-183), with what its start meets, the environment
    variables [environ] and the script of poll cycles. *)
Definition main (boot : startup) (environ : string -> option string)
    (ws : list world) : M unit :=
  setup_logging (s_logging boot) ;;
  let logger := ModuleLogger in
  let endpoint_url := environ "SVIX_ENDPOINT_URL" in
  let api_key := environ "SVIX_API_KEY" in
  match is_set endpoint_url, is_set api_key with
  | Some endpoint_url, Some api_key =>
      log logger INFO
          [Lit "Starting Svix poller for endpoint: "; Fmt (PyStr endpoint_url)] ;;
      signal_signal SIGINT (s_sigint boot) ;;
      signal_signal SIGTERM (s_sigterm boot) ;;
      try_except
        (run_poller endpoint_url api_key logger 30 ws)
        [(is_KeyboardInterrupt,
          fun _ => log logger INFO [Lit "Shutting down..."]);
         (is_Exception,
          fun e => log logger ERROR [Lit "Fatal error: "; FmtExn e] ;;
                   raise (SystemExit 1))]
  | _, _ =>
      log logger ERROR
          [Lit "SVIX_ENDPOINT_URL and SVIX_API_KEY must be set in environment"]
  end.

(** The exit status of the interpreter (on POSIX) once [main()] is over: 0
    when it returns; for a [SystemExit] the low byte of its code, when the
    code fits a C [int]; 1 for another uncaught exception.  [None] when
    there is no exit status to tell: the loop still runs, an uncaught
    [KeyboardInterrupt] makes the interpreter end itself by SIGINT, or the
    code of the [SystemExit] does not fit a C [int]. *)
Definition exit_status (o : outcome unit) : option Z :=
  match o with
  | Returned _ => Some 0%Z
  | Raised (SystemExit code) =>
      if Z.leb (- 2 ^ 31) code && Z.ltb code (2 ^ 31)
      then Some (code mod 256)%Z
      else None
  | Raised KeyboardInterrupt => None
  | Raised _ => Some 1%Z
  | Pending => None
  end.

(** *** The webhook verifier *)

(** Why a signature is refused. *)
Inductive refusal : Type :=
| SignatureAbsent
| SignatureMalformed
| SignatureMismatch.

Section Verifier.

(** The signature scheme of the svix library, which [main.py] imports. *)
Variable header_signature : list (string * string) -> option string.
Variable decode_signature : string -> option string.
Variable sign : string -> string -> list (string * string) -> string.
Variable json_loads : string -> PyVal.

Definition check_signature (secret payload : string)
    (headers : list (string * string)) : option refusal :=
  match header_signature headers with
  | None => Some SignatureAbsent
  | Some raw =>
      match decode_signature raw with
      | None => Some SignatureMalformed
      | Some sig =>
          if String.eqb sig (sign secret payload headers) then None
          else Some SignatureMismatch
      end
  end.

(** Modelled from the spec: [Webhook(secret).verify(payload, headers)] of
    the svix library, which is not part of the sources.  It fails with a
    verification error when the signature carried in the headers is
    absent, malformed, or does not match the signature recomputed from the
    payload and the secret; on success it returns the parsed payload. *)
Definition Webhook_verify (secret payload : string)
    (headers : list (string * string)) : M PyVal :=
  emit (EvVerify secret payload headers) ;;
  match check_signature secret payload headers with
  | Some _ => raise WebhookVerificationError
  | None => ret (json_loads payload)
  end.

(** [verify_webhook] (lines 46-57); a bare [raise] re-raises [e].  The
    constructor [Webhook(webhook_secret)] is taken to succeed. *)
Definition verify_webhook (payload : string) (headers : list (string * string))
    (webhook_secret : string) : M PyVal :=
  try_except
    (Webhook_verify webhook_secret payload headers)
    [(is_WebhookVerificationError,
      fun e => log RootLogger ERROR
                   [Lit "Webhook verification failed: "; FmtExn e] ;;
               raise e)].

End Verifier.

(* ===================================================================== *)
(** ** Vocabulary of the properties *)
(* ===================================================================== *)

(** The condition of lines 37-40 on a decoded payload. *)
Definition ref_matches (d : pydict) : bool :=
  match dict_get "ref" d with
  | Some v => py_eq_str v "refs/heads/master" || py_eq_str v "refs/heads/main"
  | None => false
  end.

(** A fetch fails when the request raises, the status is not 200, parsing
    the body raises, or the parsed body is not a JSON object (then
    [data.get] raises [AttributeError]). *)
Inductive fetch_fails : http_outcome -> Prop :=
| request_raises e :
    is_Exception e = true -> fetch_fails (GetRaises e)
| bad_status status body :
    status <> 200%Z -> fetch_fails (Response status body)
| parse_raises e :
    is_Exception e = true -> fetch_fails (Response 200 (JsonRaises e))
| not_an_object v :
    (forall d, v <> PyDict d) -> fetch_fails (Response 200 (JsonValue v)).

(** An envelope whose payload makes [process_webhook_payload] deploy. *)
Definition triggers_deploy (msg : PyVal) : bool :=
  match msg with
  | PyDict m =>
      match dict_get_default "payload" m (PyDict []) with
      | PyDict d => ref_matches d
      | _ => false
      end
  | _ => false
  end.

Definition is_dict (v : PyVal) : bool :=
  match v with
  | PyDict _ => true
  | _ => false
  end.

Definition is_deploy (ev : event) : bool :=
  match ev with
  | EvDeploy => true
  | _ => false
  end.

Definition deploy_count (t : trace) : nat := length (filter is_deploy t).

(** A well-formed envelope: {"id": id, "payload": {"ref": ref}}. *)
Definition envelope (id ref : string) : PyVal :=
  PyDict [("id", PyStr id); ("payload", PyDict [("ref", PyStr ref)])].

(** A batch with a JSON [null] between two well-formed envelopes. *)
Definition batch_with_null : PyVal :=
  PyList [envelope "m1" "refs/heads/main"; PyNone;
          envelope "m2" "refs/heads/main"].

(** JSON body: {"data": [m1, null, m2], "iterator": "", "done": true} *)
Definition body_with_null : PyVal :=
  PyDict [("data", batch_with_null); ("iterator", PyStr ""); ("done", PyBool true)].

Definition environ_set (name : string) : option string :=
  if String.eqb name "SVIX_ENDPOINT_URL" then Some "https://svix.example/poll"
  else if String.eqb name "SVIX_API_KEY" then Some "sk_test"
  else None.

Definition is_verify (ev : event) : bool :=
  match ev with
  | EvVerify _ _ _ => true
  | _ => false
  end.

(** A trace without a call of [wh.verify]. *)
Definition no_verify (t : trace) : Prop := Forall (fun ev => is_verify ev = false) t.

(** The cursor rule in the words of the specification: advance to the next
    cursor when the fetch is not done and the cursor is a non-empty string,
    otherwise start over without a cursor. *)
Definition advance (next_iterator : string) (done : bool) : PyVal :=
  if negb done && negb (String.eqb next_iterator "")
  then PyStr next_iterator
  else PyNone.

(** Scenario: the fetch answers
    {"data": [{"id": "m1", "payload": {"ref": "refs/heads/main"}}],
     "iterator": "c1", "done": false}. *)
Definition world_c1 : world :=
  World (Response 200 (JsonValue (PyDict
           [("data", PyList [envelope "m1" "refs/heads/main"]);
            ("iterator", PyStr "c1"); ("done", PyBool false)])))
        None.

(** The trace of a run that stops at the configuration check. *)
Definition missing_configuration_trace : trace :=
  [EvSetupLogging;
   EvLog ModuleLogger ERROR
     [Lit "SVIX_ENDPOINT_URL and SVIX_API_KEY must be set in environment"]].

Definition is_get (ev : event) : bool :=
  match ev with
  | EvGet _ _ => true
  | _ => false
  end.

Definition environ_without_key (name : string) : option string :=
  if String.eqb name "SVIX_ENDPOINT_URL" then Some "https://svix.example/poll"
  else None.

(** A response whose "data" is the number 1: the [for] loop of
    [process_messages] raises [TypeError] outside its [try]. *)
Definition world_data_1 : world :=
  World (Response 200 (JsonValue (PyDict [("data", PyInt 1)]))) None.

Definition is_sleep (ev : event) : bool :=
  match ev with
  | EvSleep _ => true
  | _ => false
  end.

(** The requests and the sleeps of a trace. *)
Definition get_count (t : trace) : nat := length (filter is_get t).

Definition sleep_count (t : trace) : nat := length (filter is_sleep t).

(** An envelope whose payload is JSON [null]: {"id": id, "payload": null}. *)
Definition envelope_null_payload (id : string) : PyVal :=
  PyDict [("id", PyStr id); ("payload", PyNone)].

(** A cycle whose request is answered with status 500. *)
Definition world_500 : world :=
  World (Response 500 (JsonValue PyNone)) None.

(** A cycle whose sleep is ended by exception [e], after an empty answer. *)
Definition world_interrupted (e : exn) : world :=
  World (Response 200 (JsonValue (PyDict []))) (Some e).

Definition environ_empty_key (name : string) : option string :=
  if String.eqb name "SVIX_ENDPOINT_URL" then Some "https://svix.example/poll"
  else if String.eqb name "SVIX_API_KEY" then Some ""
  else None.

(** The events one message can cause: log records and calls of [deploy]. *)
Definition is_dispatch (ev : event) : bool :=
  match ev with
  | EvLog _ _ _ | EvDeploy => true
  | _ => false
  end.

Definition dispatch_only (t : trace) : Prop := Forall (fun ev => is_dispatch ev = true) t.

(** The values a [for] loop can iterate over. *)
Definition is_iterable (v : PyVal) : bool :=
  match v with
  | PyList _ | PyDict _ | PyStr _ => true
  | _ => false
  end.

(** A start of [main] where nothing raises. *)
Definition startup_ok : startup := Startup None None None.

(** A start of [main] where [setup_logging] cannot open its log file. *)
Definition startup_logging_fails : startup :=
  Startup (Some (OtherException "NotADirectoryError")) None None.

(* ===================================================================== *)
(** ** Properties *)
(* ===================================================================== *)

Lemma py_eq_str_spec v s : py_eq_str v s = true <-> v = PyStr s.
Proof.
  destruct v; simpl; try (split; [discriminate | intros H; discriminate H]).
  rewrite String.eqb_eq. split; [now intros -> | now intros [= ->]].
Qed.

Lemma process_webhook_payload_dict (d : pydict) :
  process_webhook_payload (PyDict d) =
  if ref_matches d then
    ([EvLog RootLogger INFO
        [Lit "Push to master/main branch detected, triggering deploy"];
      EvDeploy;
      EvLog RootLogger INFO
        [Lit "Deploy function called (empty implementation)"]],
     Returned tt)
  else
    ([EvLog RootLogger INFO
        [Lit "Ignoring push to ";
         Fmt (dict_get_default "ref" d PyNone)]],
     Returned tt).
Proof.
  unfold process_webhook_payload, ref_matches, py_get, dict_get_default.
  destruct (dict_get "ref" d) as [v|].
  - destruct (py_eq_str v "refs/heads/master") eqn:E1.
    + cbn. rewrite E1. reflexivity.
    + destruct (py_eq_str v "refs/heads/main") eqn:E2;
        cbn; rewrite E1; cbn; rewrite E2; reflexivity.
  - reflexivity.
Qed.

(** C1: on a decoded payload (a string-keyed map) [process_webhook_payload]
    always returns normally, and it calls [deploy] if and only if the
    payload's "ref" is "refs/heads/master" or "refs/heads/main"; any other
    value of "ref", and an absent "ref", never calls it. *)
Theorem process_webhook_payload_deploys_iff_ref (d : pydict) :
  result (process_webhook_payload (PyDict d)) = Returned tt /\
  (In EvDeploy (events (process_webhook_payload (PyDict d))) <->
   dict_get "ref" d = Some (PyStr "refs/heads/master") \/
   dict_get "ref" d = Some (PyStr "refs/heads/main")).
Proof.
  rewrite process_webhook_payload_dict. unfold ref_matches.
  destruct (dict_get "ref" d) as [v|] eqn:Hget.
  - destruct (py_eq_str v "refs/heads/master") eqn:E1; simpl.
    + apply py_eq_str_spec in E1; subst v. split; [reflexivity|].
      split; [intros _; now left | intros _; right; now left].
    + destruct (py_eq_str v "refs/heads/main") eqn:E2; simpl.
      * apply py_eq_str_spec in E2; subst v. split; [reflexivity|].
        split; [intros _; now right | intros _; right; now left].
      * split; [reflexivity|]. split.
        -- intros [H|[]]; discriminate H.
        -- intros [[= ->]|[= ->]]; simpl in *; discriminate.
  - simpl. split; [reflexivity|]. split.
    + intros [H|[]]; discriminate H.
    + intros [H|H]; discriminate H.
Qed.

(* --------------------------------------------------------------------- *)
(** *** The effect monad *)
(* --------------------------------------------------------------------- *)

Lemma events_bind {A B} (m : M A) (k : A -> M B) :
  events (bind m k) =
  events m ++ match result m with
              | Returned a => events (k a)
              | _ => []
              end.
Proof.
  destruct m as [t [a|e|]]; simpl.
  - destruct (k a); reflexivity.
  - now rewrite app_nil_r.
  - now rewrite app_nil_r.
Qed.

Lemma result_bind {A B} (m : M A) (k : A -> M B) :
  result (bind m k) =
  match result m with
  | Returned a => result (k a)
  | Raised e => Raised e
  | Pending => Pending
  end.
Proof.
  destruct m as [t [a|e|]]; simpl; try reflexivity.
  destruct (k a); reflexivity.
Qed.

Lemma events_try_except {A} (body : M A) clauses :
  events (try_except body clauses) =
  events body ++ match result body with
                 | Raised e => match select_handler e clauses with
                               | Some h => events (h e)
                               | None => []
                               end
                 | _ => []
                 end.
Proof.
  destruct body as [t [a|e|]]; simpl; try now rewrite app_nil_r.
  destruct (select_handler e clauses) as [h|]; simpl.
  - destruct (h e); reflexivity.
  - now rewrite app_nil_r.
Qed.

Lemma result_try_except {A} (body : M A) clauses :
  result (try_except body clauses) =
  match result body with
  | Raised e => match select_handler e clauses with
                | Some h => result (h e)
                | None => Raised e
                end
  | other => other
  end.
Proof.
  destruct body as [t [a|e|]]; simpl; try reflexivity.
  destruct (select_handler e clauses) as [h|]; simpl; [|reflexivity].
  destruct (h e); reflexivity.
Qed.

(* --------------------------------------------------------------------- *)
(** *** [poll_messages] *)
(* --------------------------------------------------------------------- *)

Lemma poll_messages_starts_with_get http endpoint_url api_key logger iterator :
  exists t,
    events (poll_messages http endpoint_url api_key logger iterator) =
    EvGet (poll_url endpoint_url iterator) (poll_headers api_key) :: t.
Proof.
  unfold poll_messages. rewrite events_try_except, events_bind. simpl.
  eexists. reflexivity.
Qed.

Lemma dict_get_default_spec key d default :
  (forall v, dict_get key d = Some v -> dict_get_default key d default = v) /\
  (dict_get key d = None -> dict_get_default key d default = default).
Proof.
  unfold dict_get_default. split.
  - now intros v ->.
  - now intros ->.
Qed.

(** C5: when the response has status 200 and its body parses to a JSON
    object [B], [poll_messages] makes its one request and returns the triple
    of [B]'s "data", "iterator" and "done" fields, where an absent "data"
    gives the empty list, an absent "iterator" the empty string and an
    absent "done" [True]. *)
Theorem poll_messages_success (B : pydict) endpoint_url api_key logger iterator :
  exists data next_iterator done,
    poll_messages (Response 200 (JsonValue (PyDict B)))
                  endpoint_url api_key logger iterator =
    ([EvGet (poll_url endpoint_url iterator) (poll_headers api_key)],
     Returned (data, next_iterator, done)) /\
    (forall v, dict_get "data" B = Some v -> data = v) /\
    (dict_get "data" B = None -> data = PyList []) /\
    (forall v, dict_get "iterator" B = Some v -> next_iterator = v) /\
    (dict_get "iterator" B = None -> next_iterator = PyStr "") /\
    (forall v, dict_get "done" B = Some v -> done = v) /\
    (dict_get "done" B = None -> done = PyBool true).
Proof.
  exists (dict_get_default "data" B (PyList [])),
         (dict_get_default "iterator" B (PyStr "")),
         (dict_get_default "done" B (PyBool true)).
  split; [reflexivity|].
  destruct (dict_get_default_spec "data" B (PyList [])) as [Hd1 Hd2].
  destruct (dict_get_default_spec "iterator" B (PyStr "")) as [Hi1 Hi2].
  destruct (dict_get_default_spec "done" B (PyBool true)) as [Hf1 Hf2].
  repeat split; assumption.
Qed.

(** C3: when the response status is not 200, or the request or the parsing
    of the response raises an exception (an instance of [Exception]),
    [poll_messages] returns the empty message list, the empty cursor and
    [done = True]; nothing is raised to the caller. *)
Theorem poll_messages_failure http endpoint_url api_key logger iterator :
  fetch_fails http ->
  result (poll_messages http endpoint_url api_key logger iterator) =
  Returned (PyList [], PyStr "", PyBool true).
Proof.
  intros H. unfold poll_messages. rewrite result_try_except, result_bind.
  destruct H as [e He|status body Hs|e He|v Hv]; simpl.
  - now rewrite He.
  - apply Z.eqb_neq in Hs. now rewrite Hs.
  - now rewrite He.
  - destruct v; try reflexivity. now destruct (Hv d).
Qed.

Lemma poll_messages_failure_witness :
  fetch_fails (Response 500 (JsonValue PyNone)) /\
  result (poll_messages (Response 500 (JsonValue PyNone))
                        "https://svix.example/poll" "key" ModuleLogger PyNone) =
  Returned (PyList [], PyStr "", PyBool true).
Proof.
  split.
  - apply bad_status. discriminate.
  - apply (poll_messages_failure (Response 500 (JsonValue PyNone))).
    apply bad_status. discriminate.
Defined.

(** Whatever the environment does, [poll_messages] lets no instance of
    [Exception] through; only [KeyboardInterrupt], [CancelledError] and
    [SystemExit] pass its [except Exception]. *)
Lemma poll_messages_raises_no_Exception http endpoint_url api_key logger iterator e :
  result (poll_messages http endpoint_url api_key logger iterator) = Raised e ->
  is_Exception e = false.
Proof.
  unfold poll_messages. rewrite result_try_except, result_bind. simpl.
  destruct http as [e0|status body]; simpl.
  - destruct (is_Exception e0) eqn:E; simpl; [discriminate|].
    now intros [= <-].
  - destruct (Z.eqb status 200); simpl; [|discriminate].
    destruct body as [v|e0]; simpl.
    + destruct v; simpl; discriminate.
    + destruct (is_Exception e0) eqn:E; simpl; [discriminate|].
      now intros [= <-].
Qed.

(** C10: [poll_messages] called with the empty string as iterator behaves
    exactly as when called with no iterator ([None]): the two calls have the
    same trace and the same result, and in both the request goes to the
    endpoint URL alone, without an iterator query parameter. *)
Theorem poll_messages_empty_iterator_is_none http endpoint_url api_key logger :
  poll_messages http endpoint_url api_key logger (PyStr "") =
  poll_messages http endpoint_url api_key logger PyNone /\
  exists t,
    events (poll_messages http endpoint_url api_key logger (PyStr "")) =
      EvGet [Fmt (PyStr endpoint_url)] (poll_headers api_key) :: t /\
    events (poll_messages http endpoint_url api_key logger PyNone) =
      EvGet [Fmt (PyStr endpoint_url)] (poll_headers api_key) :: t.
Proof.
  split; [reflexivity|].
  destruct (poll_messages_starts_with_get http endpoint_url api_key logger PyNone)
    as [t Ht].
  exists t. split; exact Ht.
Qed.

(* --------------------------------------------------------------------- *)
(** *** [process_messages] *)
(* --------------------------------------------------------------------- *)

Lemma deploy_count_app t1 t2 :
  deploy_count (t1 ++ t2) = deploy_count t1 + deploy_count t2.
Proof. unfold deploy_count. now rewrite filter_app, length_app. Qed.

(** An envelope that is a [dict]: either its payload is a [dict] and is
    evaluated, or evaluating it raises [AttributeError], which is caught and
    logged with the envelope's id. *)
Lemma process_message_envelope logger (m : pydict) :
  process_message logger (PyDict m) =
  let i := dict_get_default "id" m PyNone in
  match dict_get_default "payload" m (PyDict []) with
  | PyDict d =>
      (EvLog logger INFO [Lit "Processing message: "; Fmt i]
         :: events (process_webhook_payload (PyDict d)),
       Returned tt)
  | _ =>
      ([EvLog logger INFO [Lit "Processing message: "; Fmt i];
        EvLog logger ERROR
          [Lit "Error processing message "; Fmt i; Lit ": ";
           FmtExn AttributeError]],
       Returned tt)
  end.
Proof.
  unfold process_message. cbn [py_get].
  destruct (dict_get_default "payload" m (PyDict [])) as [| | | | |l|d];
    try reflexivity.
  cbn -[process_webhook_payload].
  rewrite process_webhook_payload_dict.
  destruct (ref_matches d); reflexivity.
Qed.

(** An envelope that is not a [dict]: [msg.get] raises in the [try] body
    and again in the [except] handler, so the exception leaves the loop. *)
Lemma process_message_not_dict logger msg :
  is_dict msg = false ->
  process_message logger msg = ([], Raised AttributeError).
Proof. destruct msg; simpl; intros H; try reflexivity; discriminate H. Qed.

Lemma process_message_dict_returns logger msg :
  is_dict msg = true ->
  result (process_message logger msg) = Returned tt /\
  deploy_count (events (process_message logger msg)) =
  if triggers_deploy msg then 1 else 0.
Proof.
  destruct msg as [| | | | |l|m]; simpl; try discriminate. intros _.
  rewrite process_message_envelope. cbv zeta.
  destruct (dict_get_default "payload" m (PyDict [])) as [| | | | |l|d];
    try (split; reflexivity).
  rewrite process_webhook_payload_dict.
  destruct (ref_matches d); split; reflexivity.
Qed.

(** Failure isolation for batches of [dict] envelopes: every envelope is
    processed, the call returns, and [deploy] runs once per envelope whose
    payload matches. *)
Lemma for_each_envelopes logger (batch : list PyVal) :
  forallb is_dict batch = true ->
  result (for_each batch (process_message logger)) = Returned tt /\
  deploy_count (events (for_each batch (process_message logger))) =
  length (filter triggers_deploy batch).
Proof.
  induction batch as [|msg batch IH]; simpl; [now split|].
  intros H. apply andb_true_iff in H as [Hd Hb].
  destruct (process_message_dict_returns logger msg Hd) as [Hr Hc].
  destruct (IH Hb) as [IHr IHc].
  rewrite result_bind, events_bind, Hr, deploy_count_app, Hc, IHc.
  split; [exact IHr|].
  destruct (triggers_deploy msg); reflexivity.
Qed.

Lemma process_messages_isolates_dict_envelopes logger (batch : list PyVal) :
  forallb is_dict batch = true ->
  result (process_messages (PyList batch) logger) = Returned tt /\
  deploy_count (events (process_messages (PyList batch) logger)) =
  length (filter triggers_deploy batch).
Proof.
  intros H. unfold process_messages. cbn [py_iter].
  rewrite result_bind, events_bind. simpl.
  now apply for_each_envelopes.
Qed.

(** C4: evaluation of [process_messages] on a batch that holds a JSON
    [null] between two well-formed envelopes.  The first envelope is
    processed; at the [null], [msg.get] raises in the [try] body and again
    in the [except] handler, so [AttributeError] leaves [process_messages]:
    nothing is logged for the [null], the envelope after it is never
    processed, and [main] ends the process with status 1. *)
Theorem process_messages_aborts_on_null_envelope :
  process_messages batch_with_null ModuleLogger =
  ([EvLog ModuleLogger INFO [Lit "Processing message: "; Fmt (PyStr "m1")];
    EvLog RootLogger INFO
      [Lit "Push to master/main branch detected, triggering deploy"];
    EvDeploy;
    EvLog RootLogger INFO [Lit "Deploy function called (empty implementation)"]],
   Raised AttributeError) /\
  result (main startup_ok environ_set
               [World (Response 200 (JsonValue body_with_null)) None]) =
  Raised (SystemExit 1) /\
  deploy_count (events (main startup_ok environ_set
               [World (Response 200 (JsonValue body_with_null)) None])) = 1.
Proof. repeat split. Qed.

(* --------------------------------------------------------------------- *)
(** *** The polling path never calls the verifier *)
(* --------------------------------------------------------------------- *)

Lemma no_verify_bind {A B} (m : M A) (k : A -> M B) :
  no_verify (events m) ->
  (forall a, no_verify (events (k a))) ->
  no_verify (events (bind m k)).
Proof.
  intros Hm Hk. rewrite events_bind. apply Forall_app. split; [exact Hm|].
  destruct (result m); [apply Hk | constructor | constructor].
Qed.

Lemma no_verify_try_except {A} (body : M A) clauses :
  no_verify (events body) ->
  Forall (fun c : except_clause A => forall e, no_verify (events (snd c e))) clauses ->
  no_verify (events (try_except body clauses)).
Proof.
  intros Hb Hc. rewrite events_try_except. apply Forall_app. split; [exact Hb|].
  destruct (result body) as [a|e|]; try constructor.
  induction Hc as [|[catches h] rest Hh _ IH]; simpl; [constructor|].
  destruct (catches e); [apply Hh | exact IH].
Qed.

Lemma no_verify_py_get obj key default : no_verify (events (py_get obj key default)).
Proof. destruct obj; constructor. Qed.

Lemma no_verify_log lg lvl msg : no_verify (events (log lg lvl msg)).
Proof. repeat constructor. Qed.

Lemma no_verify_process_webhook_payload payload :
  no_verify (events (process_webhook_payload payload)).
Proof.
  unfold process_webhook_payload.
  apply no_verify_bind; [apply no_verify_py_get | intros r1].
  apply no_verify_bind.
  - destruct (py_eq_str r1 "refs/heads/master"); [constructor|].
    apply no_verify_bind; [apply no_verify_py_get | intros r2; constructor].
  - intros [|].
    + repeat constructor.
    + apply no_verify_bind; [apply no_verify_py_get | intros r3].
      apply no_verify_log.
Qed.

Lemma no_verify_process_message logger msg :
  no_verify (events (process_message logger msg)).
Proof.
  unfold process_message. apply no_verify_try_except.
  - apply no_verify_bind; [apply no_verify_py_get | intros payload].
    apply no_verify_bind; [apply no_verify_py_get | intros i].
    apply no_verify_bind; [apply no_verify_log | intros _].
    apply no_verify_process_webhook_payload.
  - constructor; [|constructor]. intros e. simpl.
    apply no_verify_bind; [apply no_verify_py_get | intros i].
    apply no_verify_log.
Qed.

Lemma no_verify_for_each logger items :
  no_verify (events (for_each items (process_message logger))).
Proof.
  induction items as [|msg items IH]; simpl; [constructor|].
  apply no_verify_bind; [apply no_verify_process_message | intros _; exact IH].
Qed.

Lemma no_verify_process_messages messages logger :
  no_verify (events (process_messages messages logger)).
Proof.
  unfold process_messages. apply no_verify_bind.
  - destruct messages; constructor.
  - intros items. apply no_verify_for_each.
Qed.

Lemma no_verify_poll_messages http endpoint_url api_key logger iterator :
  no_verify (events (poll_messages http endpoint_url api_key logger iterator)).
Proof.
  unfold poll_messages. apply no_verify_try_except.
  - apply no_verify_bind; [repeat constructor | intros _].
    destruct http as [e|status body]; [constructor|].
    destruct (negb (Z.eqb status 200)).
    + apply no_verify_bind; [apply no_verify_log | intros _; constructor].
    + apply no_verify_bind; [destruct body; constructor | intros data].
      apply no_verify_bind; [apply no_verify_py_get | intros d].
      apply no_verify_bind; [apply no_verify_py_get | intros i].
      apply no_verify_bind; [apply no_verify_py_get | intros f; constructor].
  - constructor; [|constructor]. intros e. repeat constructor.
Qed.

Lemma no_verify_poll_cycle endpoint_url api_key logger poll_interval iterator w :
  no_verify (events (poll_cycle endpoint_url api_key logger poll_interval iterator w)).
Proof.
  unfold poll_cycle.
  apply no_verify_bind; [apply no_verify_poll_messages | intros [[messages next] done]].
  apply no_verify_bind.
  - destruct (truthy messages); [apply no_verify_process_messages | constructor].
  - intros _. apply no_verify_bind; [|intros _; constructor].
    unfold asyncio_sleep. apply no_verify_bind; [repeat constructor | intros _].
    destruct (w_sleep w); constructor.
Qed.

Lemma no_verify_poll_loop endpoint_url api_key logger poll_interval ws :
  forall iterator,
    no_verify (events (poll_loop endpoint_url api_key logger poll_interval iterator ws)).
Proof.
  induction ws as [|w ws IH]; intros iterator; simpl; [constructor|].
  apply no_verify_bind; [apply no_verify_poll_cycle | intros it'; apply IH].
Qed.

Lemma no_verify_startup_step (ev : event) fault :
  is_verify ev = false ->
  no_verify (events (match fault with
                     | None => emit ev
                     | Some e => raise e
                     end)).
Proof. intros H. destruct fault; repeat constructor. exact H. Qed.

Lemma no_verify_main boot environ ws : no_verify (events (main boot environ ws)).
Proof.
  unfold main.
  apply no_verify_bind; [now apply no_verify_startup_step | intros _].
  destruct (is_set (environ "SVIX_ENDPOINT_URL")) as [endpoint_url|];
    [|apply no_verify_log].
  destruct (is_set (environ "SVIX_API_KEY")) as [api_key|];
    [|apply no_verify_log].
  apply no_verify_bind; [apply no_verify_log | intros _].
  apply no_verify_bind; [now apply no_verify_startup_step | intros _].
  apply no_verify_bind; [now apply no_verify_startup_step | intros _].
  apply no_verify_try_except; [apply no_verify_poll_loop|].
  constructor; [intros e; apply no_verify_log|].
  constructor; [|constructor]. intros e. repeat constructor.
Qed.

Lemma no_verify_not_in t secret payload headers :
  no_verify t -> ~ In (EvVerify secret payload headers) t.
Proof.
  unfold no_verify. rewrite Forall_forall. intros H Hin.
  specialize (H _ Hin). discriminate H.
Qed.

(** C8: on the polling path payloads are evaluated without signature
    verification: for every batch, the trace of [process_messages] holds no
    call of the verifier, and neither does any run of [run_poller] or of
    [main]; the verifier is not reached from the entry point. *)
Theorem process_messages_never_verifies messages logger secret payload headers :
  ~ In (EvVerify secret payload headers)
       (events (process_messages messages logger)) /\
  (forall endpoint_url api_key poll_interval ws,
      ~ In (EvVerify secret payload headers)
           (events (run_poller endpoint_url api_key logger poll_interval ws))) /\
  (forall boot environ ws,
      ~ In (EvVerify secret payload headers) (events (main boot environ ws))).
Proof.
  split; [|split].
  - apply no_verify_not_in, no_verify_process_messages.
  - intros endpoint_url api_key poll_interval ws.
    apply no_verify_not_in. unfold run_poller. apply no_verify_poll_loop.
  - intros boot environ ws. apply no_verify_not_in, no_verify_main.
Qed.

(* --------------------------------------------------------------------- *)
(** *** The cursor of the poll loop *)
(* --------------------------------------------------------------------- *)

Lemma next_cursor_advance next_iterator done :
  next_cursor (PyStr next_iterator) (PyBool done) = advance next_iterator done.
Proof. reflexivity. Qed.

(** For arbitrary JSON values the rule goes by truth value. *)
Lemma next_cursor_spec next_iterator done :
  next_cursor next_iterator done =
  if truthy done then PyNone
  else if truthy next_iterator then next_iterator else PyNone.
Proof. unfold next_cursor. destruct (truthy done); reflexivity. Qed.

Lemma poll_loop_cons endpoint_url api_key logger poll_interval iterator w ws cursor :
  result (poll_cycle endpoint_url api_key logger poll_interval iterator w) =
  Returned cursor ->
  poll_loop endpoint_url api_key logger poll_interval iterator (w :: ws) =
  (events (poll_cycle endpoint_url api_key logger poll_interval iterator w)
     ++ events (poll_loop endpoint_url api_key logger poll_interval cursor ws),
   result (poll_loop endpoint_url api_key logger poll_interval cursor ws)).
Proof.
  intros H. cbn [poll_loop].
  destruct (poll_cycle endpoint_url api_key logger poll_interval iterator w)
    as [t r] eqn:E.
  simpl in H. subst r. simpl.
  destruct (poll_loop endpoint_url api_key logger poll_interval cursor ws).
  reflexivity.
Qed.

Lemma poll_loop_starts_with_get endpoint_url api_key logger poll_interval iterator w ws :
  exists t,
    events (poll_loop endpoint_url api_key logger poll_interval iterator (w :: ws)) =
    EvGet (poll_url endpoint_url iterator) (poll_headers api_key) :: t.
Proof.
  cbn [poll_loop]. unfold poll_cycle.
  destruct (poll_messages_starts_with_get (w_http w) endpoint_url api_key
                                          logger iterator) as [t Ht].
  rewrite !events_bind, Ht. simpl. eexists. reflexivity.
Qed.

Lemma advance_spec next_iterator done :
  (done = false /\ next_iterator <> "" ->
   advance next_iterator done = PyStr next_iterator) /\
  (done = true \/ next_iterator = "" ->
   advance next_iterator done = PyNone).
Proof.
  unfold advance. split.
  - intros [-> Hne]. apply String.eqb_neq in Hne. now rewrite Hne.
  - intros [->| ->]; [reflexivity|]. now rewrite andb_false_r.
Qed.

(** C2: in a poll cycle whose fetch returns [(messages, next_iterator,
    done)] and which reaches its end, the cursor of the next fetch is
    [next_iterator] itself when [done] is false and [next_iterator] is a
    non-empty string, and [None] when [done] is true or [next_iterator] is
    empty: the loop goes on with that cursor, and its next cycle starts with
    the request built from it. *)
Theorem poll_cycle_cursor endpoint_url api_key logger poll_interval iterator w
    messages (next_iterator : string) (done : bool) :
  result (poll_messages (w_http w) endpoint_url api_key logger iterator) =
    Returned (messages, PyStr next_iterator, PyBool done) ->
  result (if truthy messages then process_messages messages logger else ret tt) =
    Returned tt ->
  w_sleep w = None ->
  exists cursor,
    (done = false /\ next_iterator <> "" -> cursor = PyStr next_iterator) /\
    (done = true \/ next_iterator = "" -> cursor = PyNone) /\
    result (poll_cycle endpoint_url api_key logger poll_interval iterator w) =
      Returned cursor /\
    (forall ws,
        poll_loop endpoint_url api_key logger poll_interval iterator (w :: ws) =
        (events (poll_cycle endpoint_url api_key logger poll_interval iterator w)
           ++ events (poll_loop endpoint_url api_key logger poll_interval cursor ws),
         result (poll_loop endpoint_url api_key logger poll_interval cursor ws))) /\
    (forall w' ws, exists t,
        events (poll_loop endpoint_url api_key logger poll_interval cursor
                          (w' :: ws)) =
        EvGet (poll_url endpoint_url cursor) (poll_headers api_key) :: t).
Proof.
  intros Hfetch Hproc Hsleep.
  exists (advance next_iterator done).
  assert (Hcycle :
    result (poll_cycle endpoint_url api_key logger poll_interval iterator w) =
    Returned (advance next_iterator done)).
  { unfold poll_cycle. rewrite result_bind, Hfetch.
    rewrite result_bind, Hproc. rewrite Hsleep.
    rewrite next_cursor_advance. reflexivity. }
  destruct (advance_spec next_iterator done) as [Hadv Hreset].
  split; [exact Hadv|]. split; [exact Hreset|].
  split; [exact Hcycle|]. split.
  - intros ws. now apply poll_loop_cons.
  - intros w' ws. apply poll_loop_starts_with_get.
Qed.

Lemma poll_cycle_cursor_witness :
  exists cursor,
    (false = false /\ "c1" <> "" -> cursor = PyStr "c1") /\
    (false = true \/ "c1" = "" -> cursor = PyNone) /\
    result (poll_cycle "https://svix.example/poll" "sk_test" ModuleLogger 30
                       PyNone world_c1) = Returned cursor /\
    (forall ws,
        poll_loop "https://svix.example/poll" "sk_test" ModuleLogger 30 PyNone
                  (world_c1 :: ws) =
        (events (poll_cycle "https://svix.example/poll" "sk_test" ModuleLogger 30
                            PyNone world_c1)
           ++ events (poll_loop "https://svix.example/poll" "sk_test"
                                ModuleLogger 30 cursor ws),
         result (poll_loop "https://svix.example/poll" "sk_test"
                           ModuleLogger 30 cursor ws))) /\
    (forall w' ws, exists t,
        events (poll_loop "https://svix.example/poll" "sk_test" ModuleLogger 30
                          cursor (w' :: ws)) =
        EvGet (poll_url "https://svix.example/poll" cursor)
              (poll_headers "sk_test") :: t).
Proof.
  apply (poll_cycle_cursor "https://svix.example/poll" "sk_test" ModuleLogger 30
           PyNone world_c1 (PyList [envelope "m1" "refs/heads/main"]) "c1" false);
    reflexivity.
Defined.

(** The same scenario run for two cycles: [deploy] is called once and the
    second request carries the cursor "c1". *)
Example run_poller_scenario_c1 :
  filter (fun ev => match ev with EvGet _ _ | EvDeploy => true | _ => false end)
         (events (run_poller "https://svix.example/poll" "sk_test" ModuleLogger 30
                             [world_c1; World (GetRaises (OtherException "ClientError")) None])) =
  [EvGet [Fmt (PyStr "https://svix.example/poll")] (poll_headers "sk_test");
   EvDeploy;
   EvGet [Fmt (PyStr "https://svix.example/poll"); Lit "?iterator=";
          Fmt (PyStr "c1")] (poll_headers "sk_test")].
Proof. reflexivity. Qed.

(* --------------------------------------------------------------------- *)
(** *** [main]: configuration and faults *)
(* --------------------------------------------------------------------- *)

(** A fault of [setup_logging] leaves [main] at once: nothing is logged. *)
Lemma main_setup_fails boot environ ws e :
  s_logging boot = Some e ->
  main boot environ ws = ([], Raised e).
Proof. unfold main. intros ->. reflexivity. Qed.

(** A variable that is unset or empty stops [main] before the loop. *)
Lemma main_not_configured boot environ ws :
  s_logging boot = None ->
  is_set (environ "SVIX_ENDPOINT_URL") = None \/
  is_set (environ "SVIX_API_KEY") = None ->
  main boot environ ws = (missing_configuration_trace, Returned tt).
Proof.
  unfold main. intros -> [H|H]; rewrite H.
  - reflexivity.
  - destruct (is_set (environ "SVIX_ENDPOINT_URL")); reflexivity.
Qed.

Lemma main_configured boot environ ws endpoint_url api_key :
  s_logging boot = None ->
  s_sigint boot = None ->
  s_sigterm boot = None ->
  is_set (environ "SVIX_ENDPOINT_URL") = Some endpoint_url ->
  is_set (environ "SVIX_API_KEY") = Some api_key ->
  main boot environ ws =
  (let (t, r) :=
     try_except
       (run_poller endpoint_url api_key ModuleLogger 30 ws)
       [(is_KeyboardInterrupt,
         fun _ => log ModuleLogger INFO [Lit "Shutting down..."]);
        (is_Exception,
         fun e => log ModuleLogger ERROR [Lit "Fatal error: "; FmtExn e] ;;
                  raise (SystemExit 1))] in
   (EvSetupLogging
      :: EvLog ModuleLogger INFO
           [Lit "Starting Svix poller for endpoint: "; Fmt (PyStr endpoint_url)]
      :: EvSignal SIGINT :: EvSignal SIGTERM :: t, r)).
Proof.
  unfold main. intros -> -> -> -> ->.
  cbn -[run_poller try_except].
  destruct (try_except _ _). reflexivity.
Qed.

(** A fault of [signal.signal] leaves a configured [main] before the loop. *)
Lemma main_signal_fails boot environ ws endpoint_url api_key :
  s_logging boot = None ->
  is_set (environ "SVIX_ENDPOINT_URL") = Some endpoint_url ->
  is_set (environ "SVIX_API_KEY") = Some api_key ->
  (forall e, s_sigint boot = Some e -> result (main boot environ ws) = Raised e) /\
  (forall e, s_sigint boot = None -> s_sigterm boot = Some e ->
             result (main boot environ ws) = Raised e).
Proof.
  unfold main. intros -> -> ->. split.
  - intros e ->. reflexivity.
  - intros e -> ->. reflexivity.
Qed.

(** C9: when [setup_logging] has returned and the endpoint URL or the API
    key is missing from the environment, [main] logs the configuration
    error and returns (exit status 0) without a single request of the poll
    loop; when an instance of [Exception] escapes the loop, [main] logs it
    as a fatal error and exits with status 1. *)
Theorem main_exit_status boot environ ws :
  s_logging boot = None ->
  (environ "SVIX_ENDPOINT_URL" = None \/ environ "SVIX_API_KEY" = None ->
   main boot environ ws = (missing_configuration_trace, Returned tt) /\
   exit_status (result (main boot environ ws)) = Some 0%Z /\
   filter is_get (events (main boot environ ws)) = []) /\
  (forall endpoint_url api_key e,
      s_sigint boot = None ->
      s_sigterm boot = None ->
      is_set (environ "SVIX_ENDPOINT_URL") = Some endpoint_url ->
      is_set (environ "SVIX_API_KEY") = Some api_key ->
      result (run_poller endpoint_url api_key ModuleLogger 30 ws) = Raised e ->
      is_Exception e = true ->
      result (main boot environ ws) = Raised (SystemExit 1) /\
      exit_status (result (main boot environ ws)) = Some 1%Z /\
      exists t,
        events (main boot environ ws) =
        t ++ [EvLog ModuleLogger ERROR [Lit "Fatal error: "; FmtExn e]]).
Proof.
  intros Hlog. split.
  - intros H.
    assert (Hm : main boot environ ws = (missing_configuration_trace, Returned tt)).
    { apply main_not_configured; [exact Hlog|].
      destruct H as [H|H]; rewrite H; auto. }
    rewrite Hm. repeat split.
  - intros endpoint_url api_key e Hint Hterm Hu Hk Hr He.
    rewrite (main_configured boot environ ws endpoint_url api_key
                             Hlog Hint Hterm Hu Hk).
    destruct (run_poller endpoint_url api_key ModuleLogger 30 ws) as [t r].
    simpl in Hr. subst r. simpl.
    assert (Hki : is_KeyboardInterrupt e = false) by (destruct e; auto; discriminate).
    rewrite Hki, He. simpl. repeat split.
    exists (EvSetupLogging
              :: EvLog ModuleLogger INFO
                   [Lit "Starting Svix poller for endpoint: ";
                    Fmt (PyStr endpoint_url)]
              :: EvSignal SIGINT :: EvSignal SIGTERM :: t).
    reflexivity.
Qed.

Lemma main_exit_status_witness :
  exit_status (result (main startup_ok environ_without_key [world_c1])) =
    Some 0%Z /\
  exit_status (result (main startup_ok environ_set [world_data_1])) = Some 1%Z.
Proof.
  split.
  - apply (main_exit_status startup_ok environ_without_key [world_c1]);
      [reflexivity | right; reflexivity].
  - apply (proj2 (main_exit_status startup_ok environ_set [world_data_1]
                                   eq_refl)
                 "https://svix.example/poll" "sk_test" TypeError);
      reflexivity.
Defined.

(** With the API key missing and [setup_logging] failing to open its log
    file, [main] logs nothing, the exception leaves it, and the process
    ends with status 1. *)
Lemma main_missing_key_setup_fails :
  environ_without_key "SVIX_API_KEY" = None /\
  main startup_logging_fails environ_without_key [world_c1] =
    ([], Raised (OtherException "NotADirectoryError")) /\
  exit_status (result (main startup_logging_fails environ_without_key [world_c1])) =
    Some 1%Z.
Proof. repeat split. Qed.

(** Other ends of [main]: a [KeyboardInterrupt] out of the loop is logged
    and [main] returns; a [SystemExit] (raised by [handle_shutdown]) passes
    through with its code. *)
Lemma main_other_exits boot environ ws endpoint_url api_key e :
  s_logging boot = None ->
  s_sigint boot = None ->
  s_sigterm boot = None ->
  is_set (environ "SVIX_ENDPOINT_URL") = Some endpoint_url ->
  is_set (environ "SVIX_API_KEY") = Some api_key ->
  result (run_poller endpoint_url api_key ModuleLogger 30 ws) = Raised e ->
  is_Exception e = false ->
  result (main boot environ ws) =
  if is_KeyboardInterrupt e then Returned tt else Raised e.
Proof.
  intros Hlog Hint Hterm Hu Hk Hr He.
  rewrite (main_configured boot environ ws endpoint_url api_key
                           Hlog Hint Hterm Hu Hk).
  destruct (run_poller endpoint_url api_key ModuleLogger 30 ws) as [t r].
  simpl in Hr. subst r. simpl. rewrite He.
  destruct (is_KeyboardInterrupt e); reflexivity.
Qed.

Lemma handle_shutdown_exits signum :
  exit_status (result (handle_shutdown signum)) = Some 0%Z.
Proof. reflexivity. Qed.

(** An exception thrown into the sleep of a cycle ends the loop there: the
    rest of the script is not consumed, so no further request is made. *)
Lemma poll_loop_interrupted_in_sleep
    endpoint_url api_key logger poll_interval iterator w ws e fetched :
  result (poll_messages (w_http w) endpoint_url api_key logger iterator) =
    Returned fetched ->
  result (if truthy (fst (fst fetched))
          then process_messages (fst (fst fetched)) logger else ret tt) =
    Returned tt ->
  w_sleep w = Some e ->
  poll_loop endpoint_url api_key logger poll_interval iterator (w :: ws) =
  (events (poll_cycle endpoint_url api_key logger poll_interval iterator w),
   Raised e).
Proof.
  intros Hfetch Hproc Hsleep. cbn [poll_loop].
  assert (Hr : result (poll_cycle endpoint_url api_key logger poll_interval
                                  iterator w) = Raised e).
  { unfold poll_cycle. rewrite result_bind, Hfetch.
    destruct fetched as [[messages next_iterator] done]. simpl in Hproc.
    rewrite result_bind, Hproc, Hsleep. reflexivity. }
  destruct (poll_cycle endpoint_url api_key logger poll_interval iterator w)
    as [t r].
  simpl in Hr. subst r. reflexivity.
Qed.

(* --------------------------------------------------------------------- *)
(** *** [verify_webhook] *)
(* --------------------------------------------------------------------- *)

Section VerifierProperties.

Variable header_signature : list (string * string) -> option string.
Variable decode_signature : string -> option string.
Variable sign : string -> string -> list (string * string) -> string.
Variable json_loads : string -> PyVal.

Lemma check_signature_refuses secret payload headers :
  check_signature header_signature decode_signature sign
                  secret payload headers <> None <->
  header_signature headers = None \/
  (exists raw, header_signature headers = Some raw /\
               decode_signature raw = None) \/
  (exists raw sig, header_signature headers = Some raw /\
                   decode_signature raw = Some sig /\
                   sig <> sign secret payload headers).
Proof.
  unfold check_signature.
  destruct (header_signature headers) as [raw|]; [|split; [now left | discriminate]].
  destruct (decode_signature raw) as [sig|] eqn:Hd.
  - destruct (String.eqb_spec sig (sign secret payload headers)) as [Heq|Hne].
    + split; [congruence|]. intros [H|[(raw' & H & H')|(raw' & sig' & H & H' & H'')]];
        try discriminate; exfalso; congruence.
    + split; [|discriminate]. intros _. right; right. now exists raw, sig.
  - split; [|discriminate]. intros _. right; left. now exists raw.
Qed.

Lemma verify_webhook_cases payload headers secret :
  verify_webhook header_signature decode_signature sign json_loads
                 payload headers secret =
  match check_signature header_signature decode_signature sign
                        secret payload headers with
  | Some _ =>
      ([EvVerify secret payload headers;
        EvLog RootLogger ERROR
          [Lit "Webhook verification failed: "; FmtExn WebhookVerificationError]],
       Raised WebhookVerificationError)
  | None => ([EvVerify secret payload headers], Returned (json_loads payload))
  end.
Proof.
  unfold verify_webhook, Webhook_verify.
  destruct (check_signature _ _ _ secret payload headers); reflexivity.
Qed.

End VerifierProperties.

(** C7: for every payload, header map and secret, [verify_webhook] raises
    the verification error exactly when the signature carried in the
    headers is absent, malformed, or differs from the signature recomputed
    from the payload and the secret, and it logs the failure before raising;
    otherwise it returns the parsed payload.  It never calls [deploy]. *)
Theorem verify_webhook_raises_iff_signature_refused
    (header_signature : list (string * string) -> option string)
    (decode_signature : string -> option string)
    (sign : string -> string -> list (string * string) -> string)
    (json_loads : string -> PyVal)
    (payload : string) (headers : list (string * string)) (secret : string) :
  let call := verify_webhook header_signature decode_signature sign json_loads
                             payload headers secret in
  let refused :=
    header_signature headers = None \/
    (exists raw, header_signature headers = Some raw /\
                 decode_signature raw = None) \/
    (exists raw sig, header_signature headers = Some raw /\
                     decode_signature raw = Some sig /\
                     sig <> sign secret payload headers) in
  (result call = Raised WebhookVerificationError <-> refused) /\
  (refused ->
   events call =
   [EvVerify secret payload headers;
    EvLog RootLogger ERROR
      [Lit "Webhook verification failed: "; FmtExn WebhookVerificationError]]) /\
  (~ refused -> call = ([EvVerify secret payload headers],
                        Returned (json_loads payload))) /\
  ~ In EvDeploy (events call).
Proof.
  intros call refused. subst call.
  rewrite verify_webhook_cases.
  pose proof (check_signature_refuses header_signature decode_signature sign
                                      secret payload headers) as Hc.
  fold refused in Hc.
  destruct (check_signature header_signature decode_signature sign
                            secret payload headers) as [why|]; simpl.
  - assert (Hr : refused) by (apply Hc; discriminate).
    split; [split; auto|]. split; [auto|]. split.
    + intros Hn. now destruct Hn.
    + intros [H|[H|[]]]; discriminate H.
  - assert (Hr : ~ refused) by (intros H; apply Hc in H; now apply H).
    split; [split; [discriminate | intros H; now destruct Hr]|].
    split; [intros H; now destruct Hr|]. split; [reflexivity|].
    intros [H|[]]; discriminate H.
Qed.

(* ===================================================================== *)
(** ** Further properties of [main.py] *)
(* ===================================================================== *)

(* --------------------------------------------------------------------- *)
(** *** Sequencing *)
(* --------------------------------------------------------------------- *)

Lemma bind_ret_l {A B} (a : A) (k : A -> M B) : bind (ret a) k = k a.
Proof. unfold bind, ret. destruct (k a); reflexivity. Qed.

Lemma bind_ext {A B} (m : M A) (k1 k2 : A -> M B) :
  (forall a, k1 a = k2 a) -> bind m k1 = bind m k2.
Proof. intros H. destruct m as [t [a|e|]]; simpl; [now rewrite H | easy | easy]. Qed.

Lemma bind_assoc {A B C} (m : M A) (f : A -> M B) (g : B -> M C) :
  bind (bind m f) g = bind m (fun a => bind (f a) g).
Proof.
  destruct m as [t [a|e|]]; simpl; try reflexivity.
  destruct (f a) as [t1 [b|e|]]; simpl; try reflexivity.
  destruct (g b) as [t2 r2]. now rewrite app_assoc.
Qed.

Lemma result_returned_bind {A B} (m : M A) (k : A -> M B) b :
  result (bind m k) = Returned b ->
  exists a, result m = Returned a /\ result (k a) = Returned b.
Proof.
  rewrite result_bind. destruct (result m) as [a|e|]; try discriminate.
  intros H. now exists a.
Qed.

Lemma get_count_app t1 t2 : get_count (t1 ++ t2) = get_count t1 + get_count t2.
Proof. unfold get_count. now rewrite filter_app, length_app. Qed.

Lemma sleep_count_app t1 t2 :
  sleep_count (t1 ++ t2) = sleep_count t1 + sleep_count t2.
Proof. unfold sleep_count. now rewrite filter_app, length_app. Qed.

Lemma for_each_app {A} (l1 l2 : list A) (body : A -> M unit) :
  for_each (l1 ++ l2) body =
  (for_each l1 body ;; for_each l2 body).
Proof.
  induction l1 as [|x l1 IH]; cbn [for_each app].
  - now rewrite bind_ret_l.
  - rewrite bind_assoc. apply bind_ext. intros _. exact IH.
Qed.

Lemma process_messages_list logger (batch : list PyVal) :
  process_messages (PyList batch) logger = for_each batch (process_message logger).
Proof. unfold process_messages. cbn [py_iter]. now rewrite bind_ret_l. Qed.

(* --------------------------------------------------------------------- *)
(** *** Batches *)
(* --------------------------------------------------------------------- *)

(** X1: for a batch whose envelopes are all [dict]s, [process_messages]
    returns normally whatever the payloads are, and [deploy] is called
    exactly once for each envelope whose payload is a [dict] with a
    matching "ref". *)
Theorem process_messages_dict_batch logger (batch : list PyVal) :
  forallb is_dict batch = true ->
  result (process_messages (PyList batch) logger) = Returned tt /\
  deploy_count (events (process_messages (PyList batch) logger)) =
  length (filter triggers_deploy batch).
Proof.
  intros H. rewrite process_messages_list. now apply for_each_envelopes.
Qed.

Lemma process_messages_dict_batch_witness :
  result (process_messages
            (PyList [envelope "m1" "refs/heads/main";
                     envelope_null_payload "m2";
                     envelope "m3" "refs/heads/dev";
                     envelope "m4" "refs/heads/master"]) ModuleLogger) =
    Returned tt /\
  deploy_count (events (process_messages
            (PyList [envelope "m1" "refs/heads/main";
                     envelope_null_payload "m2";
                     envelope "m3" "refs/heads/dev";
                     envelope "m4" "refs/heads/master"]) ModuleLogger)) = 2.
Proof.
  apply (process_messages_dict_batch ModuleLogger
           [envelope "m1" "refs/heads/main"; envelope_null_payload "m2";
            envelope "m3" "refs/heads/dev"; envelope "m4" "refs/heads/master"]).
  reflexivity.
Defined.

(** X2: a batch is processed in order, and a batch made of two parts
    behaves as the first part followed by the second: the second part is
    reached only when the first one returns. *)
Theorem process_messages_app logger (batch1 batch2 : list PyVal) :
  process_messages (PyList (batch1 ++ batch2)) logger =
  (process_messages (PyList batch1) logger ;;
   process_messages (PyList batch2) logger).
Proof. rewrite !process_messages_list. apply for_each_app. Qed.

(** X3: an envelope that is not a [dict] ends the batch: the envelopes
    before it are processed, [AttributeError] leaves [process_messages]
    without a log record for that envelope, and the envelopes after it are
    not processed. *)
Theorem process_messages_stops_at_non_dict logger (before after : list PyVal) msg :
  forallb is_dict before = true ->
  is_dict msg = false ->
  process_messages (PyList (before ++ msg :: after)) logger =
  (events (process_messages (PyList before) logger), Raised AttributeError).
Proof.
  intros Hb Hm. rewrite !process_messages_list, for_each_app.
  destruct (for_each_envelopes logger before Hb) as [Hr _].
  destruct (for_each before (process_message logger)) as [t r].
  simpl in Hr. subst r. cbn [for_each events fst].
  rewrite (process_message_not_dict logger msg Hm). simpl.
  now rewrite app_nil_r.
Qed.

Lemma process_messages_stops_at_non_dict_witness :
  process_messages
    (PyList ([envelope "m1" "refs/heads/dev"]
               ++ PyStr "m2" :: [envelope "m3" "refs/heads/main"]))
    ModuleLogger =
  (events (process_messages (PyList [envelope "m1" "refs/heads/dev"]) ModuleLogger),
   Raised AttributeError).
Proof.
  apply (process_messages_stops_at_non_dict ModuleLogger
           [envelope "m1" "refs/heads/dev"] [envelope "m3" "refs/heads/main"]
           (PyStr "m2"));
    reflexivity.
Defined.

(** X4: an envelope without a "payload" key is evaluated as the empty
    payload: it is logged, ignored as a push to [None], and is no error. *)
Theorem process_message_without_payload logger (m : pydict) :
  dict_get "payload" m = None ->
  process_message logger (PyDict m) =
  ([EvLog logger INFO
      [Lit "Processing message: "; Fmt (dict_get_default "id" m PyNone)];
    EvLog RootLogger INFO [Lit "Ignoring push to "; Fmt PyNone]],
   Returned tt).
Proof.
  intros H. rewrite process_message_envelope. cbv zeta.
  unfold dict_get_default at 1. rewrite H.
  rewrite process_webhook_payload_dict. reflexivity.
Qed.

Lemma process_message_without_payload_witness :
  process_message ModuleLogger (PyDict [("id", PyStr "m5")]) =
  ([EvLog ModuleLogger INFO
      [Lit "Processing message: ";
       Fmt (dict_get_default "id" [("id", PyStr "m5")] PyNone)];
    EvLog RootLogger INFO [Lit "Ignoring push to "; Fmt PyNone]],
   Returned tt).
Proof.
  apply (process_message_without_payload ModuleLogger [("id", PyStr "m5")]).
  reflexivity.
Defined.

(** X5: an envelope whose payload is present but is not a [dict] (JSON
    [null], a string, a number, a list) is an error of that envelope only:
    the [AttributeError] is caught and logged with the envelope's id,
    [deploy] is not called, and the call returns normally. *)
Theorem process_message_bad_payload logger (m : pydict) payload :
  dict_get "payload" m = Some payload ->
  is_dict payload = false ->
  process_message logger (PyDict m) =
  ([EvLog logger INFO
      [Lit "Processing message: "; Fmt (dict_get_default "id" m PyNone)];
    EvLog logger ERROR
      [Lit "Error processing message "; Fmt (dict_get_default "id" m PyNone);
       Lit ": "; FmtExn AttributeError]],
   Returned tt).
Proof.
  intros H Hd. rewrite process_message_envelope. cbv zeta.
  unfold dict_get_default at 1. rewrite H.
  destruct payload; try reflexivity. discriminate Hd.
Qed.

Lemma process_message_bad_payload_witness :
  process_message ModuleLogger (envelope_null_payload "m2") =
  ([EvLog ModuleLogger INFO
      [Lit "Processing message: ";
       Fmt (dict_get_default "id" [("id", PyStr "m2"); ("payload", PyNone)] PyNone)];
    EvLog ModuleLogger ERROR
      [Lit "Error processing message ";
       Fmt (dict_get_default "id" [("id", PyStr "m2"); ("payload", PyNone)] PyNone);
       Lit ": "; FmtExn AttributeError]],
   Returned tt).
Proof.
  apply (process_message_bad_payload ModuleLogger
           [("id", PyStr "m2"); ("payload", PyNone)] PyNone);
    reflexivity.
Defined.

(* --------------------------------------------------------------------- *)
(** *** One fetch *)
(* --------------------------------------------------------------------- *)

Lemma poll_messages_counts http endpoint_url api_key logger iterator :
  get_count (events (poll_messages http endpoint_url api_key logger iterator)) = 1 /\
  sleep_count (events (poll_messages http endpoint_url api_key logger iterator)) = 0 /\
  deploy_count (events (poll_messages http endpoint_url api_key logger iterator)) = 0.
Proof.
  unfold poll_messages. destruct http as [e|status body]; simpl.
  - destruct (is_Exception e); repeat split.
  - destruct (Z.eqb status 200); simpl; [|repeat split].
    destruct body as [v|e]; simpl.
    + destruct v; repeat split.
    + destruct (is_Exception e); repeat split.
Qed.

(** X6: one call of [poll_messages] makes exactly one request, whatever the
    answer is: a failed request is not repeated within the call, and the
    call neither sleeps nor deploys. *)
Theorem poll_messages_one_request http endpoint_url api_key logger iterator :
  get_count (events (poll_messages http endpoint_url api_key logger iterator)) = 1 /\
  sleep_count (events (poll_messages http endpoint_url api_key logger iterator)) = 0 /\
  deploy_count (events (poll_messages http endpoint_url api_key logger iterator)) = 0.
Proof. apply poll_messages_counts. Qed.

Lemma poll_messages_raised http endpoint_url api_key logger iterator e :
  result (poll_messages http endpoint_url api_key logger iterator) = Raised e ->
  is_Exception e = false /\
  (http = GetRaises e \/ http = Response 200 (JsonRaises e)).
Proof.
  unfold poll_messages. rewrite result_try_except, result_bind. simpl.
  destruct http as [e0|status body]; simpl.
  - destruct (is_Exception e0) eqn:E; simpl; [discriminate|].
    intros [= <-]. auto.
  - destruct (Z.eqb_spec status 200) as [->|Hne]; simpl; [|discriminate].
    destruct body as [v|e0]; simpl.
    + destruct v; simpl; discriminate.
    + destruct (is_Exception e0) eqn:E; simpl; [discriminate|].
      intros [= <-]. auto.
Qed.

(** X7: the only exceptions that leave [poll_messages] are the ones the
    environment throws into the request or into the parsing of a 200
    response and that are not instances of [Exception]
    ([KeyboardInterrupt], [CancelledError], [SystemExit]); they leave it
    unchanged. *)
Theorem poll_messages_passes_only_base_exceptions
    http endpoint_url api_key logger iterator e :
  result (poll_messages http endpoint_url api_key logger iterator) = Raised e ->
  is_Exception e = false /\
  (http = GetRaises e \/ http = Response 200 (JsonRaises e)).
Proof. apply poll_messages_raised. Qed.

Lemma poll_messages_passes_only_base_exceptions_witness :
  is_Exception CancelledError = false /\
  (GetRaises CancelledError = GetRaises CancelledError \/
   GetRaises CancelledError = Response 200 (JsonRaises CancelledError)).
Proof.
  apply (poll_messages_passes_only_base_exceptions (GetRaises CancelledError)
           "https://svix.example/poll" "sk_test" ModuleLogger PyNone CancelledError).
  reflexivity.
Defined.

(** X8: only status 200 counts as success.  For any other status, also
    another 2xx, the body is never parsed: the status is logged as an error
    and the empty result is returned, even when parsing the body would
    raise. *)
Theorem poll_messages_other_status status body endpoint_url api_key logger iterator :
  status <> 200%Z ->
  poll_messages (Response status body) endpoint_url api_key logger iterator =
  ([EvGet (poll_url endpoint_url iterator) (poll_headers api_key);
    EvLog logger ERROR [Lit "Failed to poll messages: "; Fmt (PyInt status)]],
   Returned (PyList [], PyStr "", PyBool true)).
Proof.
  intros H. apply Z.eqb_neq in H. unfold poll_messages. simpl. rewrite H.
  reflexivity.
Qed.

Lemma poll_messages_other_status_witness :
  poll_messages (Response 204 (JsonRaises KeyboardInterrupt))
                "https://svix.example/poll" "sk_test" ModuleLogger PyNone =
  ([EvGet (poll_url "https://svix.example/poll" PyNone) (poll_headers "sk_test");
    EvLog ModuleLogger ERROR [Lit "Failed to poll messages: "; Fmt (PyInt 204)]],
   Returned (PyList [], PyStr "", PyBool true)).
Proof.
  apply (poll_messages_other_status 204 (JsonRaises KeyboardInterrupt)).
  discriminate.
Defined.

(** X9: a non-empty cursor is sent back verbatim: the request goes to the
    endpoint URL followed by "?iterator=" and the cursor, with the bearer
    token of the API key in the "Authorization" header. *)
Theorem poll_messages_sends_cursor http endpoint_url api_key logger (cursor : string) :
  cursor <> "" ->
  exists t,
    events (poll_messages http endpoint_url api_key logger (PyStr cursor)) =
    EvGet [Fmt (PyStr endpoint_url); Lit "?iterator="; Fmt (PyStr cursor)]
          [("Authorization", [Lit "Bearer "; Fmt (PyStr api_key)]);
           ("Content-Type", [Lit "application/json"]);
           ("Accept", [Lit "application/json"])] :: t.
Proof.
  intros H.
  destruct (poll_messages_starts_with_get http endpoint_url api_key logger
                                          (PyStr cursor)) as [t Ht].
  exists t. rewrite Ht. unfold poll_url, poll_headers. simpl.
  apply String.eqb_neq in H. now rewrite H.
Qed.

Lemma poll_messages_sends_cursor_witness :
  exists t,
    events (poll_messages (Response 200 (JsonValue (PyDict [])))
                          "https://svix.example/poll" "sk_test" ModuleLogger
                          (PyStr "c1")) =
    EvGet [Fmt (PyStr "https://svix.example/poll"); Lit "?iterator=";
           Fmt (PyStr "c1")]
          [("Authorization", [Lit "Bearer "; Fmt (PyStr "sk_test")]);
           ("Content-Type", [Lit "application/json"]);
           ("Accept", [Lit "application/json"])] :: t.
Proof.
  apply (poll_messages_sends_cursor (Response 200 (JsonValue (PyDict [])))
           "https://svix.example/poll" "sk_test" ModuleLogger "c1").
  discriminate.
Defined.

(* --------------------------------------------------------------------- *)
(** *** Poll cycles and the loop *)
(* --------------------------------------------------------------------- *)

Lemma dispatch_only_bind {A B} (m : M A) (k : A -> M B) :
  dispatch_only (events m) ->
  (forall a, dispatch_only (events (k a))) ->
  dispatch_only (events (bind m k)).
Proof.
  intros Hm Hk. rewrite events_bind. apply Forall_app. split; [exact Hm|].
  destruct (result m); [apply Hk | constructor | constructor].
Qed.

Lemma dispatch_only_py_get obj key default :
  dispatch_only (events (py_get obj key default)).
Proof. destruct obj; constructor. Qed.

Lemma dispatch_only_process_webhook_payload payload :
  dispatch_only (events (process_webhook_payload payload)).
Proof.
  destruct payload as [| | | | | |d];
    try (unfold process_webhook_payload; simpl; constructor).
  rewrite process_webhook_payload_dict.
  destruct (ref_matches d); repeat constructor.
Qed.

Lemma dispatch_only_process_message logger msg :
  dispatch_only (events (process_message logger msg)).
Proof.
  destruct msg as [| | | | | |m];
    try (rewrite process_message_not_dict by reflexivity; constructor).
  rewrite process_message_envelope. cbv zeta.
  destruct (dict_get_default "payload" m (PyDict [])) as [| | | | | |d];
    try (repeat constructor).
  apply dispatch_only_process_webhook_payload.
Qed.

Lemma dispatch_only_process_messages messages logger :
  dispatch_only (events (process_messages messages logger)).
Proof.
  unfold process_messages. apply dispatch_only_bind.
  - destruct messages; constructor.
  - intros items. induction items as [|msg items IH]; simpl; [constructor|].
    apply dispatch_only_bind; [apply dispatch_only_process_message|].
    intros _. exact IH.
Qed.

Lemma dispatch_only_counts t :
  dispatch_only t -> get_count t = 0 /\ sleep_count t = 0.
Proof.
  induction 1 as [|ev t Hev _ [IHg IHs]]; [now split|].
  unfold get_count, sleep_count in *. simpl.
  destruct ev; try discriminate Hev; simpl; now split.
Qed.

Lemma process_message_result logger msg :
  result (process_message logger msg) =
  if is_dict msg then Returned tt else Raised AttributeError.
Proof.
  destruct msg as [| | | | | |m]; try reflexivity.
  rewrite process_message_envelope. cbv zeta.
  now destruct (dict_get_default "payload" m (PyDict [])).
Qed.

Lemma for_each_not_pending logger (items : list PyVal) :
  result (for_each items (process_message logger)) <> Pending.
Proof.
  induction items as [|msg items IH]; simpl; [discriminate|].
  rewrite result_bind, process_message_result.
  destruct (is_dict msg); [exact IH | discriminate].
Qed.

Lemma process_messages_not_pending messages logger :
  result (process_messages messages logger) <> Pending.
Proof.
  unfold process_messages. rewrite result_bind.
  destruct (py_iter messages) as [t [items|e|]] eqn:E; simpl;
    [apply for_each_not_pending | discriminate |].
  destruct messages; discriminate E.
Qed.

(** A cycle written with projections of the fetched triple. *)
Lemma poll_cycle_unfold endpoint_url api_key logger poll_interval iterator w :
  poll_cycle endpoint_url api_key logger poll_interval iterator w =
  (fetched <- poll_messages (w_http w) endpoint_url api_key logger iterator ;;
   (if truthy (fst (fst fetched))
    then process_messages (fst (fst fetched)) logger else ret tt) ;;
   asyncio_sleep poll_interval (w_sleep w) ;;
   ret (next_cursor (snd (fst fetched)) (snd fetched))).
Proof.
  unfold poll_cycle. apply bind_ext. intros [[messages next_iterator] done].
  reflexivity.
Qed.

Lemma asyncio_sleep_cases seconds interrupt :
  asyncio_sleep seconds interrupt =
  ([EvSleep seconds],
   match interrupt with
   | None => Returned tt
   | Some e => Raised e
   end).
Proof. destruct interrupt; reflexivity. Qed.

Lemma poll_cycle_counts endpoint_url api_key logger poll_interval iterator w :
  let cycle := poll_cycle endpoint_url api_key logger poll_interval iterator w in
  get_count (events cycle) = 1 /\
  sleep_count (events cycle) <= 1 /\
  (forall c, result cycle = Returned c -> sleep_count (events cycle) = 1) /\
  result cycle <> Pending.
Proof.
  cbv zeta. rewrite poll_cycle_unfold.
  destruct (poll_messages_counts (w_http w) endpoint_url api_key logger iterator)
    as (Hg & Hs & _).
  destruct (poll_messages (w_http w) endpoint_url api_key logger iterator)
    as [t [[[messages next_iterator] done]|e|]] eqn:Efetch; simpl in Hg, Hs.
  - cbn [bind fst snd].
    set (dispatch := if truthy messages then process_messages messages logger
                     else ret tt).
    assert (Hd : dispatch_only (events dispatch)).
    { subst dispatch. destruct (truthy messages);
        [apply dispatch_only_process_messages | constructor]. }
    apply dispatch_only_counts in Hd as [Hdg Hds].
    destruct dispatch as [td [[]|e|]] eqn:H; simpl in Hdg, Hds.
    + rewrite asyncio_sleep_cases. destruct (w_sleep w) as [e|]; simpl;
        rewrite get_count_app, sleep_count_app, Hg, Hs;
        rewrite get_count_app, sleep_count_app, Hdg, Hds;
        repeat split; try (intros; discriminate); auto.
    + simpl. rewrite get_count_app, sleep_count_app, Hg, Hs, Hdg, Hds.
      repeat split; try (intros; discriminate); auto.
    + exfalso. subst dispatch. destruct (truthy messages); [|discriminate].
      apply (process_messages_not_pending messages logger).
      now rewrite H.
  - simpl. rewrite Hg, Hs. repeat split; try (intros; discriminate); auto.
  - exfalso. clear Hg Hs. revert Efetch. unfold poll_messages.
    destruct (w_http w) as [e|status body]; simpl.
    + destruct (is_Exception e); discriminate.
    + destruct (Z.eqb status 200); simpl; [|discriminate].
      destruct body as [v|e]; simpl.
      * destruct v; discriminate.
      * destruct (is_Exception e); discriminate.
Qed.

Lemma next_cursor_none_or_truthy next_iterator done :
  next_cursor next_iterator done = PyNone \/
  truthy (next_cursor next_iterator done) = true.
Proof.
  unfold next_cursor.
  destruct (truthy done); simpl; [now left|].
  destruct (truthy next_iterator) eqn:E; [now right | now left].
Qed.

(** X10: the cursor a poll cycle hands to the next one is either [None] or
    a value that counts as true: an empty or otherwise false cursor from
    the server is never carried over, whatever JSON values the response
    holds in "iterator" and "done". *)
Theorem poll_cycle_cursor_invariant
    endpoint_url api_key logger poll_interval iterator w cursor :
  result (poll_cycle endpoint_url api_key logger poll_interval iterator w) =
    Returned cursor ->
  cursor = PyNone \/ truthy cursor = true.
Proof.
  rewrite poll_cycle_unfold. intros H.
  apply result_returned_bind in H as (fetched & _ & H).
  apply result_returned_bind in H as (u1 & _ & H).
  apply result_returned_bind in H as (u2 & _ & H).
  simpl in H. injection H as <-. apply next_cursor_none_or_truthy.
Qed.

Lemma poll_cycle_cursor_invariant_witness :
  PyStr "c1" = PyNone \/ truthy (PyStr "c1") = true.
Proof.
  apply (poll_cycle_cursor_invariant "https://svix.example/poll" "sk_test"
           ModuleLogger 30 PyNone world_c1 (PyStr "c1")).
  reflexivity.
Defined.

Lemma poll_messages_result_on_failure http endpoint_url api_key logger iterator :
  fetch_fails http ->
  result (poll_messages http endpoint_url api_key logger iterator) =
  Returned empty_fetch.
Proof.
  intros H. unfold poll_messages. rewrite result_try_except, result_bind.
  destruct H as [e He|status body Hs|e He|v Hv]; simpl.
  - now rewrite He.
  - apply Z.eqb_neq in Hs. now rewrite Hs.
  - now rewrite He.
  - destruct v; try reflexivity. now destruct (Hv d).
Qed.

(** X11: a failed fetch gives an empty cycle: nothing is dispatched, the
    loop sleeps, and the next cycle starts without a cursor, whatever the
    cursor of this cycle was. *)
Theorem poll_cycle_failed_fetch endpoint_url api_key logger poll_interval iterator w :
  fetch_fails (w_http w) ->
  w_sleep w = None ->
  poll_cycle endpoint_url api_key logger poll_interval iterator w =
  (events (poll_messages (w_http w) endpoint_url api_key logger iterator)
     ++ [EvSleep poll_interval],
   Returned PyNone) /\
  deploy_count (events (poll_cycle endpoint_url api_key logger poll_interval
                                   iterator w)) = 0.
Proof.
  intros Hf Hs.
  pose proof (poll_messages_result_on_failure _ endpoint_url api_key logger
                                              iterator Hf) as Hr.
  destruct (poll_messages_counts (w_http w) endpoint_url api_key logger iterator)
    as (_ & _ & Hd).
  unfold poll_cycle.
  destruct (poll_messages (w_http w) endpoint_url api_key logger iterator)
    as [t r].
  simpl in Hr, Hd. subst r. rewrite Hs. simpl. split; [reflexivity|].
  rewrite deploy_count_app, Hd. reflexivity.
Qed.

Lemma poll_cycle_failed_fetch_witness :
  poll_cycle "https://svix.example/poll" "sk_test" ModuleLogger 30
             (PyStr "c1") world_500 =
  (events (poll_messages (w_http world_500) "https://svix.example/poll" "sk_test"
                         ModuleLogger (PyStr "c1"))
     ++ [EvSleep 30],
   Returned PyNone) /\
  deploy_count (events (poll_cycle "https://svix.example/poll" "sk_test"
                                   ModuleLogger 30 (PyStr "c1") world_500)) = 0.
Proof.
  apply (poll_cycle_failed_fetch "https://svix.example/poll" "sk_test"
           ModuleLogger 30 (PyStr "c1") world_500).
  - apply bad_status. discriminate.
  - reflexivity.
Defined.

Lemma poll_loop_never_returns endpoint_url api_key logger poll_interval ws :
  forall iterator,
    result (poll_loop endpoint_url api_key logger poll_interval iterator ws) =
      Pending \/
    exists e,
      result (poll_loop endpoint_url api_key logger poll_interval iterator ws) =
      Raised e.
Proof.
  induction ws as [|w ws IH]; intros iterator; cbn [poll_loop]; [now left|].
  rewrite result_bind.
  destruct (result (poll_cycle endpoint_url api_key logger poll_interval
                               iterator w)) as [cursor|e|].
  - apply IH.
  - right. now exists e.
  - now left.
Qed.

(** X12: the poll loop has no normal exit: a run of [run_poller] is either
    still running when the script of the environment ends, or it was ended
    by an exception. *)
Theorem run_poller_never_returns endpoint_url api_key logger poll_interval ws :
  result (run_poller endpoint_url api_key logger poll_interval ws) = Pending \/
  exists e,
    result (run_poller endpoint_url api_key logger poll_interval ws) = Raised e.
Proof. unfold run_poller. apply poll_loop_never_returns. Qed.

Lemma poll_loop_counts endpoint_url api_key logger poll_interval ws :
  forall iterator,
    let run := poll_loop endpoint_url api_key logger poll_interval iterator ws in
    sleep_count (events run) <= get_count (events run) /\
    get_count (events run) <= sleep_count (events run) + 1 /\
    get_count (events run) <= length ws /\
    (result run = Pending ->
     get_count (events run) = length ws /\ sleep_count (events run) = length ws).
Proof.
  induction ws as [|w ws IH]; intros iterator; cbv zeta; cbn [poll_loop].
  - simpl. repeat split; auto.
  - rewrite events_bind, result_bind, get_count_app, sleep_count_app.
    destruct (poll_cycle_counts endpoint_url api_key logger poll_interval
                                iterator w) as (Hg & Hs & Hr & Hp).
    cbv zeta in Hg, Hs, Hr, Hp.
    destruct (result (poll_cycle endpoint_url api_key logger poll_interval
                                 iterator w)) as [cursor|e|].
    + specialize (Hr cursor eq_refl).
      destruct (IH cursor) as (H1 & H2 & H3 & H4). cbv zeta in H1, H2, H3, H4.
      cbn [length]. split; [lia|]. split; [lia|]. split; [lia|].
      intros Hpend. destruct (H4 Hpend). split; lia.
    + cbn [length]. change (get_count []) with 0. change (sleep_count []) with 0.
      split; [lia|]. split; [lia|]. split; [lia|].
      intros Hpend. discriminate Hpend.
    + now destruct Hp.
Qed.

(** X13: requests and sleeps alternate in every run of the loop: each
    cycle makes one request, a new request is made only after the sleep of
    the cycle before it, and there is at most one request per scripted
    cycle. *)
Theorem run_poller_paces_requests endpoint_url api_key logger poll_interval ws :
  let t := events (run_poller endpoint_url api_key logger poll_interval ws) in
  sleep_count t <= get_count t /\
  get_count t <= sleep_count t + 1 /\
  get_count t <= length ws.
Proof.
  cbv zeta. unfold run_poller.
  destruct (poll_loop_counts endpoint_url api_key logger poll_interval ws PyNone)
    as (H1 & H2 & H3 & _).
  cbv zeta in H1, H2, H3. auto.
Qed.

(** X14: a run that no exception has ended made exactly one request and
    one sleep in each of its cycles. *)
Theorem run_poller_pending_counts endpoint_url api_key logger poll_interval ws :
  result (run_poller endpoint_url api_key logger poll_interval ws) = Pending ->
  get_count (events (run_poller endpoint_url api_key logger poll_interval ws)) =
    length ws /\
  sleep_count (events (run_poller endpoint_url api_key logger poll_interval ws)) =
    length ws.
Proof.
  unfold run_poller.
  destruct (poll_loop_counts endpoint_url api_key logger poll_interval ws PyNone)
    as (_ & _ & _ & H).
  exact H.
Qed.

Lemma run_poller_pending_counts_witness :
  get_count (events (run_poller "https://svix.example/poll" "sk_test"
                                ModuleLogger 30 [world_c1; world_500; world_c1])) = 3 /\
  sleep_count (events (run_poller "https://svix.example/poll" "sk_test"
                                  ModuleLogger 30 [world_c1; world_500; world_c1])) = 3.
Proof.
  apply (run_poller_pending_counts "https://svix.example/poll" "sk_test"
           ModuleLogger 30 [world_c1; world_500; world_c1]).
  reflexivity.
Defined.

Lemma poll_cycle_object_body
    endpoint_url api_key logger poll_interval iterator w (B : pydict) :
  w_http w = Response 200 (JsonValue (PyDict B)) ->
  poll_cycle endpoint_url api_key logger poll_interval iterator w =
  (let messages := dict_get_default "data" B (PyList []) in
   emit (EvGet (poll_url endpoint_url iterator) (poll_headers api_key)) ;;
   (if truthy messages then process_messages messages logger else ret tt) ;;
   asyncio_sleep poll_interval (w_sleep w) ;;
   ret (next_cursor (dict_get_default "iterator" B (PyStr ""))
                    (dict_get_default "done" B (PyBool true)))).
Proof.
  intros H. unfold poll_cycle. rewrite H. cbv zeta.
  change (poll_messages (Response 200 (JsonValue (PyDict B)))
                        endpoint_url api_key logger iterator)
    with ([EvGet (poll_url endpoint_url iterator) (poll_headers api_key)],
          Returned (dict_get_default "data" B (PyList []),
                    dict_get_default "iterator" B (PyStr ""),
                    dict_get_default "done" B (PyBool true))).
  unfold emit. simpl.
  destruct (if truthy (dict_get_default "data" B (PyList []))
            then process_messages (dict_get_default "data" B (PyList [])) logger
            else ret tt) as [t [[]|e|]]; reflexivity.
Qed.

(** X15: in a cycle whose response is an object with a "data" list of
    [dict] envelopes, [deploy] is called exactly once for each envelope
    with a matching payload, whatever the "iterator" and "done" fields hold
    and whether or not the sleep that follows is interrupted. *)
Theorem poll_cycle_deploys_per_match
    endpoint_url api_key logger poll_interval iterator w (B : pydict) batch :
  w_http w = Response 200 (JsonValue (PyDict B)) ->
  dict_get "data" B = Some (PyList batch) ->
  forallb is_dict batch = true ->
  deploy_count (events (poll_cycle endpoint_url api_key logger poll_interval
                                   iterator w)) =
  length (filter triggers_deploy batch).
Proof.
  intros Hw Hd Hb.
  rewrite (poll_cycle_object_body _ _ _ _ _ _ B Hw). cbv zeta.
  unfold dict_get_default at 1 2 3. rewrite Hd.
  rewrite events_bind, deploy_count_app. cbn [emit events result fst snd].
  change (deploy_count [EvGet (poll_url endpoint_url iterator) (poll_headers api_key)])
    with 0.
  rewrite events_bind, deploy_count_app.
  assert (Hdisp :
    result (if truthy (PyList batch) then process_messages (PyList batch) logger
            else ret tt) = Returned tt /\
    deploy_count (events (if truthy (PyList batch)
                          then process_messages (PyList batch) logger
                          else ret tt)) = length (filter triggers_deploy batch)).
  { destruct batch as [|msg batch]; [now split|].
    cbn [truthy]. now apply process_messages_isolates_dict_envelopes. }
  destruct Hdisp as [Hr Hc]. rewrite Hr, Hc.
  rewrite events_bind, deploy_count_app, asyncio_sleep_cases.
  cbn [events result fst snd].
  destruct (w_sleep w); simpl; change (deploy_count [EvSleep poll_interval]) with 0;
    change (deploy_count []) with 0; lia.
Qed.

Lemma poll_cycle_deploys_per_match_witness :
  deploy_count (events (poll_cycle "https://svix.example/poll" "sk_test"
                                   ModuleLogger 30 PyNone world_c1)) =
  length (filter triggers_deploy [envelope "m1" "refs/heads/main"]).
Proof.
  apply (poll_cycle_deploys_per_match "https://svix.example/poll" "sk_test"
           ModuleLogger 30 PyNone world_c1
           [("data", PyList [envelope "m1" "refs/heads/main"]);
            ("iterator", PyStr "c1"); ("done", PyBool false)]);
    reflexivity.
Defined.

(** X16: a response without a "done" field counts as done: its batch is
    processed, but the cursor it carries is dropped and the next cycle
    starts without a cursor. *)
Theorem poll_cycle_missing_done_resets
    endpoint_url api_key logger poll_interval iterator w (B : pydict) batch :
  w_http w = Response 200 (JsonValue (PyDict B)) ->
  dict_get "done" B = None ->
  dict_get "data" B = Some (PyList batch) ->
  forallb is_dict batch = true ->
  w_sleep w = None ->
  result (poll_cycle endpoint_url api_key logger poll_interval iterator w) =
  Returned PyNone.
Proof.
  intros Hw Hdone Hd Hb Hs.
  rewrite (poll_cycle_object_body _ _ _ _ _ _ B Hw). cbv zeta.
  unfold dict_get_default at 1 2 4. rewrite Hd, Hdone.
  rewrite result_bind. cbn [emit result snd]. rewrite result_bind.
  assert (Hr :
    result (if truthy (PyList batch) then process_messages (PyList batch) logger
            else ret tt) = Returned tt).
  { destruct batch as [|msg batch]; [reflexivity|].
    cbn [truthy]. now apply process_messages_isolates_dict_envelopes. }
  rewrite Hr, Hs. reflexivity.
Qed.

Lemma poll_cycle_missing_done_resets_witness :
  result (poll_cycle "https://svix.example/poll" "sk_test" ModuleLogger 30 PyNone
            (World (Response 200 (JsonValue (PyDict
                      [("data", PyList [envelope "m1" "refs/heads/main"]);
                       ("iterator", PyStr "c1")])))
                   None)) =
  Returned PyNone.
Proof.
  apply (poll_cycle_missing_done_resets "https://svix.example/poll" "sk_test"
           ModuleLogger 30 PyNone
           (World (Response 200 (JsonValue (PyDict
                      [("data", PyList [envelope "m1" "refs/heads/main"]);
                       ("iterator", PyStr "c1")])))
                  None)
           [("data", PyList [envelope "m1" "refs/heads/main"]);
            ("iterator", PyStr "c1")]
           [envelope "m1" "refs/heads/main"]);
    reflexivity.
Defined.

(* --------------------------------------------------------------------- *)
(** *** The entry point *)
(* --------------------------------------------------------------------- *)

(** X17: once [setup_logging] has returned, a variable that is set to the
    empty string counts as missing: [main] logs the configuration error
    and returns without a request. *)
Theorem main_empty_variable boot environ ws :
  s_logging boot = None ->
  environ "SVIX_ENDPOINT_URL" = Some "" \/ environ "SVIX_API_KEY" = Some "" ->
  main boot environ ws = (missing_configuration_trace, Returned tt).
Proof.
  intros Hlog H. apply main_not_configured; [exact Hlog|].
  destruct H as [H|H]; rewrite H; auto.
Qed.

Lemma main_empty_variable_witness :
  main startup_ok environ_empty_key [world_c1] =
  (missing_configuration_trace, Returned tt).
Proof.
  apply (main_empty_variable startup_ok environ_empty_key [world_c1]);
    [reflexivity | right; reflexivity].
Defined.

Lemma main_loop_raised boot environ ws endpoint_url api_key e :
  s_logging boot = None ->
  s_sigint boot = None ->
  s_sigterm boot = None ->
  is_set (environ "SVIX_ENDPOINT_URL") = Some endpoint_url ->
  is_set (environ "SVIX_API_KEY") = Some api_key ->
  result (run_poller endpoint_url api_key ModuleLogger 30 ws) = Raised e ->
  main boot environ ws =
  (EvSetupLogging
     :: EvLog ModuleLogger INFO
          [Lit "Starting Svix poller for endpoint: "; Fmt (PyStr endpoint_url)]
     :: EvSignal SIGINT :: EvSignal SIGTERM
     :: events (run_poller endpoint_url api_key ModuleLogger 30 ws)
     ++ (if is_KeyboardInterrupt e
         then [EvLog ModuleLogger INFO [Lit "Shutting down..."]]
         else if is_Exception e
              then [EvLog ModuleLogger ERROR [Lit "Fatal error: "; FmtExn e]]
              else []),
   if is_KeyboardInterrupt e then Returned tt
   else if is_Exception e then Raised (SystemExit 1)
        else Raised e).
Proof.
  intros Hlog Hint Hterm Hu Hk Hr.
  rewrite (main_configured boot environ ws endpoint_url api_key
                           Hlog Hint Hterm Hu Hk).
  destruct (run_poller endpoint_url api_key ModuleLogger 30 ws) as [t r].
  simpl in Hr. subst r. simpl.
  destruct (is_KeyboardInterrupt e); [reflexivity|].
  destruct (is_Exception e); [reflexivity|].
  now rewrite app_nil_r.
Qed.

(** X18: a [KeyboardInterrupt] that leaves the poll loop is not a fault:
    [main] logs "Shutting down..." as its last record and returns, so the
    process ends with status 0. *)
Theorem main_keyboard_interrupt boot environ ws endpoint_url api_key :
  s_logging boot = None ->
  s_sigint boot = None ->
  s_sigterm boot = None ->
  is_set (environ "SVIX_ENDPOINT_URL") = Some endpoint_url ->
  is_set (environ "SVIX_API_KEY") = Some api_key ->
  result (run_poller endpoint_url api_key ModuleLogger 30 ws) =
    Raised KeyboardInterrupt ->
  result (main boot environ ws) = Returned tt /\
  exit_status (result (main boot environ ws)) = Some 0%Z /\
  exists t,
    events (main boot environ ws) =
    t ++ [EvLog ModuleLogger INFO [Lit "Shutting down..."]].
Proof.
  intros Hlog Hint Hterm Hu Hk Hr.
  rewrite (main_loop_raised boot environ ws endpoint_url api_key _
                            Hlog Hint Hterm Hu Hk Hr).
  cbn [is_KeyboardInterrupt events result fst snd exit_status].
  repeat split.
  exists (EvSetupLogging
            :: EvLog ModuleLogger INFO
                 [Lit "Starting Svix poller for endpoint: ";
                  Fmt (PyStr endpoint_url)]
            :: EvSignal SIGINT :: EvSignal SIGTERM
            :: events (run_poller endpoint_url api_key ModuleLogger 30 ws)).
  reflexivity.
Qed.

Lemma main_keyboard_interrupt_witness :
  result (main startup_ok environ_set
               [world_c1; world_interrupted KeyboardInterrupt]) =
    Returned tt /\
  exit_status (result (main startup_ok environ_set
                            [world_c1; world_interrupted KeyboardInterrupt])) =
    Some 0%Z /\
  exists t,
    events (main startup_ok environ_set
                 [world_c1; world_interrupted KeyboardInterrupt]) =
    t ++ [EvLog ModuleLogger INFO [Lit "Shutting down..."]].
Proof.
  apply (main_keyboard_interrupt startup_ok environ_set
           [world_c1; world_interrupted KeyboardInterrupt]
           "https://svix.example/poll" "sk_test");
    reflexivity.
Defined.

(** X19: a [SystemExit] that leaves the poll loop, as raised by
    [handle_shutdown], passes through [main] untouched: [main] logs nothing
    more.  When its code fits a C [int], the process ends with the low byte
    of the code as status: the code itself when it lies between 0 and 255,
    and 0 for a code of 256. *)
Theorem main_system_exit boot environ ws endpoint_url api_key code :
  s_logging boot = None ->
  s_sigint boot = None ->
  s_sigterm boot = None ->
  is_set (environ "SVIX_ENDPOINT_URL") = Some endpoint_url ->
  is_set (environ "SVIX_API_KEY") = Some api_key ->
  result (run_poller endpoint_url api_key ModuleLogger 30 ws) =
    Raised (SystemExit code) ->
  main boot environ ws =
  (EvSetupLogging
     :: EvLog ModuleLogger INFO
          [Lit "Starting Svix poller for endpoint: "; Fmt (PyStr endpoint_url)]
     :: EvSignal SIGINT :: EvSignal SIGTERM
     :: events (run_poller endpoint_url api_key ModuleLogger 30 ws),
   Raised (SystemExit code)) /\
  ((- 2 ^ 31 <= code < 2 ^ 31)%Z ->
   exit_status (result (main boot environ ws)) = Some (code mod 256)%Z) /\
  ((0 <= code < 256)%Z ->
   exit_status (result (main boot environ ws)) = Some code).
Proof.
  intros Hlog Hint Hterm Hu Hk Hr.
  rewrite (main_loop_raised boot environ ws endpoint_url api_key _
                            Hlog Hint Hterm Hu Hk Hr).
  cbn [is_KeyboardInterrupt is_Exception result snd exit_status].
  rewrite app_nil_r. split; [reflexivity|].
  assert (Hrange : (- 2 ^ 31 <= code < 2 ^ 31)%Z ->
                   Z.leb (- 2 ^ 31) code && Z.ltb code (2 ^ 31) = true).
  { intros [H1 H2]. apply andb_true_iff. split.
    - now apply Z.leb_le.
    - now apply Z.ltb_lt. }
  split.
  - intros H. now rewrite (Hrange H).
  - intros H. rewrite Hrange by lia. now rewrite Z.mod_small by lia.
Qed.

Lemma main_system_exit_witness :
  exit_status (result (main startup_ok environ_set
                            [world_c1; world_interrupted (SystemExit 256)])) =
  Some (256 mod 256)%Z.
Proof.
  apply (main_system_exit startup_ok environ_set
           [world_c1; world_interrupted (SystemExit 256)]
           "https://svix.example/poll" "sk_test" 256);
    try reflexivity.
  lia.
Defined.

(** X20: an instance of [Exception] or a [KeyboardInterrupt] leaves [main]
    only from its start, outside the [try]: it is the exception that
    [setup_logging] or one of the two calls of [signal.signal] raised.
    Whatever the poll loop raises of these, [main] handles. *)
Theorem main_Exception_only_from_startup boot environ ws e :
  result (main boot environ ws) = Raised e ->
  is_Exception e = true \/ is_KeyboardInterrupt e = true ->
  s_logging boot = Some e \/ s_sigint boot = Some e \/ s_sigterm boot = Some e.
Proof.
  intros Hmain Hclass.
  destruct (s_logging boot) as [e0|] eqn:Hlog.
  { rewrite (main_setup_fails boot environ ws e0 Hlog) in Hmain.
    injection Hmain as <-. now left. }
  destruct (is_set (environ "SVIX_ENDPOINT_URL")) as [endpoint_url|] eqn:Hu;
    [|rewrite main_not_configured in Hmain by auto; discriminate Hmain].
  destruct (is_set (environ "SVIX_API_KEY")) as [api_key|] eqn:Hk;
    [|rewrite main_not_configured in Hmain by auto; discriminate Hmain].
  destruct (main_signal_fails boot environ ws endpoint_url api_key Hlog Hu Hk)
    as [Hint Hterm].
  destruct (s_sigint boot) as [e1|] eqn:Hi.
  { rewrite (Hint e1 eq_refl) in Hmain. injection Hmain as <-. right. now left. }
  destruct (s_sigterm boot) as [e2|] eqn:Ht.
  { rewrite (Hterm e2 eq_refl eq_refl) in Hmain. injection Hmain as <-.
    right. now right. }
  exfalso.
  destruct (result (run_poller endpoint_url api_key ModuleLogger 30 ws))
    as [[]|e0|] eqn:Hr.
  - unfold run_poller in Hr.
    destruct (poll_loop_never_returns endpoint_url api_key ModuleLogger 30 ws
                                      PyNone)
      as [H|[e1 H]]; rewrite H in Hr; discriminate Hr.
  - rewrite (main_loop_raised boot environ ws endpoint_url api_key _
                              Hlog Hi Ht Hu Hk Hr) in Hmain.
    cbn [result snd] in Hmain.
    destruct e0; cbn [is_KeyboardInterrupt is_Exception] in Hmain;
      try discriminate Hmain; injection Hmain as <-;
      destruct Hclass as [H|H]; discriminate H.
  - rewrite (main_configured boot environ ws endpoint_url api_key
                             Hlog Hi Ht Hu Hk) in Hmain.
    destruct (run_poller endpoint_url api_key ModuleLogger 30 ws) as [t r].
    simpl in Hr. subst r. discriminate Hmain.
Qed.

Lemma main_Exception_only_from_startup_witness :
  s_logging startup_logging_fails = Some (OtherException "NotADirectoryError") \/
  s_sigint startup_logging_fails = Some (OtherException "NotADirectoryError") \/
  s_sigterm startup_logging_fails = Some (OtherException "NotADirectoryError").
Proof.
  apply (main_Exception_only_from_startup startup_logging_fails environ_set
           [world_c1] (OtherException "NotADirectoryError"));
    [reflexivity | left; reflexivity].
Defined.

(** X21: when [setup_logging] and both calls of [signal.signal] return, a
    configured [main] sets up logging, logs the endpoint, and installs
    [handle_shutdown] for SIGINT and SIGTERM before the first request; the
    loop then runs with the module logger and a poll interval of 30
    seconds. *)
Theorem main_starts_loop boot environ ws endpoint_url api_key :
  s_logging boot = None ->
  s_sigint boot = None ->
  s_sigterm boot = None ->
  is_set (environ "SVIX_ENDPOINT_URL") = Some endpoint_url ->
  is_set (environ "SVIX_API_KEY") = Some api_key ->
  exists t,
    events (main boot environ ws) =
    [EvSetupLogging;
     EvLog ModuleLogger INFO
       [Lit "Starting Svix poller for endpoint: "; Fmt (PyStr endpoint_url)];
     EvSignal SIGINT; EvSignal SIGTERM]
      ++ events (run_poller endpoint_url api_key ModuleLogger 30 ws) ++ t.
Proof.
  intros Hlog Hint Hterm Hu Hk.
  rewrite (main_configured boot environ ws endpoint_url api_key
                           Hlog Hint Hterm Hu Hk).
  destruct (run_poller endpoint_url api_key ModuleLogger 30 ws) as [t [[]|e|]];
    simpl.
  - exists []. now rewrite app_nil_r.
  - destruct (is_KeyboardInterrupt e).
    + eexists. reflexivity.
    + destruct (is_Exception e).
      * eexists. reflexivity.
      * exists []. now rewrite app_nil_r.
  - exists []. now rewrite app_nil_r.
Qed.

Lemma main_starts_loop_witness :
  exists t,
    events (main startup_ok environ_set [world_c1]) =
    [EvSetupLogging;
     EvLog ModuleLogger INFO
       [Lit "Starting Svix poller for endpoint: ";
        Fmt (PyStr "https://svix.example/poll")];
     EvSignal SIGINT; EvSignal SIGTERM]
      ++ events (run_poller "https://svix.example/poll" "sk_test" ModuleLogger 30
                            [world_c1]) ++ t.
Proof.
  apply (main_starts_loop startup_ok environ_set [world_c1]
           "https://svix.example/poll" "sk_test");
    reflexivity.
Defined.

(* --------------------------------------------------------------------- *)
(** *** Edges of a cycle *)
(* --------------------------------------------------------------------- *)

(** X22: the loop starts without a cursor: the first request of every run
    of [run_poller] goes to the endpoint URL alone. *)
Theorem run_poller_first_request endpoint_url api_key logger poll_interval w ws :
  exists t,
    events (run_poller endpoint_url api_key logger poll_interval (w :: ws)) =
    EvGet [Fmt (PyStr endpoint_url)] (poll_headers api_key) :: t.
Proof.
  unfold run_poller.
  destruct (poll_loop_starts_with_get endpoint_url api_key logger poll_interval
                                      PyNone w ws) as [t Ht].
  exists t. exact Ht.
Qed.

(** X23: when "data" is absent from the response, or holds a value that
    counts as false ([null], [[]], [{}], [""], [0], [false]), nothing is
    dispatched: the cycle is its request followed by its sleep. *)
Theorem poll_cycle_nothing_to_dispatch
    endpoint_url api_key logger poll_interval iterator w (B : pydict) :
  w_http w = Response 200 (JsonValue (PyDict B)) ->
  truthy (dict_get_default "data" B (PyList [])) = false ->
  events (poll_cycle endpoint_url api_key logger poll_interval iterator w) =
  [EvGet (poll_url endpoint_url iterator) (poll_headers api_key);
   EvSleep poll_interval].
Proof.
  intros Hw Hd.
  rewrite (poll_cycle_object_body _ _ _ _ _ _ B Hw). cbv zeta.
  rewrite Hd, asyncio_sleep_cases.
  destruct (w_sleep w); reflexivity.
Qed.

Lemma poll_cycle_nothing_to_dispatch_witness :
  events (poll_cycle "https://svix.example/poll" "sk_test" ModuleLogger 30 PyNone
            (World (Response 200 (JsonValue (PyDict [("data", PyNone)]))) None)) =
  [EvGet (poll_url "https://svix.example/poll" PyNone) (poll_headers "sk_test");
   EvSleep 30].
Proof.
  apply (poll_cycle_nothing_to_dispatch "https://svix.example/poll" "sk_test"
           ModuleLogger 30 PyNone
           (World (Response 200 (JsonValue (PyDict [("data", PyNone)]))) None)
           [("data", PyNone)]);
    reflexivity.
Defined.

(** X24: when "data" holds a value that counts as true but cannot be
    iterated (a non-zero number, [true]), the [for] loop of
    [process_messages] raises [TypeError] outside any [try]: the cycle ends
    after its request, before the sleep, and the exception leaves the
    loop. *)
Theorem poll_cycle_data_not_iterable
    endpoint_url api_key logger poll_interval iterator w (B : pydict) data :
  w_http w = Response 200 (JsonValue (PyDict B)) ->
  dict_get "data" B = Some data ->
  truthy data = true ->
  is_iterable data = false ->
  poll_cycle endpoint_url api_key logger poll_interval iterator w =
  ([EvGet (poll_url endpoint_url iterator) (poll_headers api_key)],
   Raised TypeError).
Proof.
  intros Hw Hd Ht Hi.
  rewrite (poll_cycle_object_body _ _ _ _ _ _ B Hw). cbv zeta.
  unfold dict_get_default at 1 2. rewrite Hd, Ht.
  destruct data; try discriminate Hi; reflexivity.
Qed.

Lemma poll_cycle_data_not_iterable_witness :
  poll_cycle "https://svix.example/poll" "sk_test" ModuleLogger 30 PyNone
             world_data_1 =
  ([EvGet (poll_url "https://svix.example/poll" PyNone) (poll_headers "sk_test")],
   Raised TypeError).
Proof.
  apply (poll_cycle_data_not_iterable "https://svix.example/poll" "sk_test"
           ModuleLogger 30 PyNone world_data_1 [("data", PyInt 1)] (PyInt 1));
    reflexivity.
Defined.
